(** * bodywork.cli.secrets: managing Kubernetes secrets from the CLI

    A shallow embedding of [src/bodywork/cli/secrets.py].  Python strings are
    [string], integers are [Z], dictionaries are insertion-ordered association
    lists, exceptions are the [Raise] case of [result], and the calls to the
    [k8s] module and to [print] are recorded in a trace of events. *)

From Stdlib Require Import ZArith List Bool Ascii String Lia.
Import ListNotations.
Open Scope string_scope.
Open Scope Z_scope.

(** ** Python values used by the module *)

Inductive exn : Type :=
| ValueError (msg : string)
| KeyError (key : string)
| ApiException (msg : string).

Inductive result (A : Type) : Type :=
| Ok (a : A)
| Raise (e : exn).
Arguments Ok {A} a.
Arguments Raise {A} e.

(** ** Strings: [str.find], slices, [str.replace] *)

Module Str.

Definition newline : string := String "010"%char EmptyString.

(** [c in s] for a single character. *)
Fixpoint mem (c : ascii) (s : string) : bool :=
  match s with
  | EmptyString => false
  | String a s' => Ascii.eqb a c || mem c s'
  end.

(** [s.find(sub)]: the lowest index at which [sub] occurs in [s], or -1. *)
Fixpoint find (sub s : string) : Z :=
  if prefix sub s then 0
  else match s with
       | EmptyString => -1
       | String _ s' => let r := find sub s' in if r <? 0 then -1 else r + 1
       end.

Fixpoint take (n : nat) (s : string) : string :=
  match n, s with
  | S n', String a s' => String a (take n' s')
  | _, _ => EmptyString
  end.

Fixpoint drop (n : nat) (s : string) : string :=
  match n, s with
  | S n', String _ s' => drop n' s'
  | _, _ => s
  end.

(** A slice bound as Python normalises it: a negative index counts from the
    end, and the result is clipped to [0, len]. *)
Definition bound (i : Z) (len : nat) : nat :=
  Z.to_nat (Z.min (Z.of_nat len) (if i <? 0 then Z.max 0 (i + Z.of_nat len) else i)).

(** [s[:stop]] *)
Definition slice_to (s : string) (stop : Z) : string :=
  take (bound stop (length s)) s.

(** [s[start:]] *)
Definition slice_from (s : string) (start : Z) : string :=
  drop (bound start (length s)) s.

(** [s.replace(old, new)] for a non-empty [old]: occurrences are replaced from
    the left, without overlap; [skip] counts the characters of a matched
    occurrence that are still to be passed over. *)
Fixpoint replace_from (old new s : string) (skip : nat) : string :=
  match s with
  | EmptyString => EmptyString
  | String a s' =>
      match skip with
      | S k => replace_from old new s' k
      | O => if prefix old s
             then new ++ replace_from old new s' (Nat.pred (length old))
             else String a (replace_from old new s' 0)
      end
  end.

Definition replace (old new s : string) : string := replace_from old new s 0.

End Str.

(** ** [_parse_secret_key_value_pair] and [parse_cli_secrets_strings] *)

Definition error_msg : string := "secret key-value pair not in KEY=VALUE format".

Definition _parse_secret_key_value_pair (kv_string : string) : result (string * string) :=
  let equals_sign := Str.find "=" kv_string in
  if equals_sign =? -1 then Raise (ValueError error_msg)
  else
    let key := Str.slice_to kv_string equals_sign in
    if (Z.of_nat (length key) =? 0) then Raise (ValueError error_msg)
    else
      let value := Str.slice_from kv_string (equals_sign + 1) in
      if (Z.of_nat (length value) =? 0) then Raise (ValueError error_msg)
      else Ok (key, value).

(** A Python [dict] with string keys: the items in insertion order.  Assigning
    to a key that is present replaces its value where it stands. *)
Definition pydict (V : Type) : Type := list (string * V).

Module Dict.

Fixpoint set {V} (k : string) (v : V) (d : pydict V) : pydict V :=
  match d with
  | [] => [(k, v)]
  | (k', v') :: d' => if String.eqb k' k then (k, v) :: d' else (k', v') :: set k v d'
  end.

Fixpoint get {V} (k : string) (d : pydict V) : option V :=
  match d with
  | [] => None
  | (k', v') :: d' => if String.eqb k' k then Some v' else get k d'
  end.

(** [d[k]] *)
Definition getitem {V} (d : pydict V) (k : string) : result V :=
  match get k d with
  | Some v => Ok v
  | None => Raise (KeyError k)
  end.

Definition keys {V} (d : pydict V) : list string := map fst d.

End Dict.

(** [dict(gen)] over the generator of parsed pairs: the items are pulled one
    at a time, so the first element that fails to parse raises before any
    later element is looked at. *)
Fixpoint dict_of_parsed (key_value_strings : list string) (acc : pydict string)
  : result (pydict string) :=
  match key_value_strings with
  | [] => Ok acc
  | key_value_string :: rest =>
      match _parse_secret_key_value_pair key_value_string with
      | Raise e => Raise e
      | Ok (key, value) => dict_of_parsed rest (Dict.set key value acc)
      end
  end.

Definition parse_cli_secrets_strings (key_value_strings : list string)
  : result (pydict string) :=
  dict_of_parsed key_value_strings [].

(** ** The [k8s] module, as [secrets.py] uses it

    The cluster is reached only through six functions of the [k8s] module.
    They are taken as an interface over an abstract cluster state: the two
    existence tests and the listing read the cluster, the other three may
    change it, and each of them may raise. *)

Record Secret : Type := mkSecret {
  name : string;
  group : string;
  data : pydict string
}.

Module k8s.

Record api (cluster : Type) : Type := {
  namespace_exists : cluster -> string -> result bool;
  secret_exists : cluster -> string -> string -> result bool;
  create_secret :
    cluster -> string -> string -> string -> pydict string -> cluster * result unit;
  update_secret : cluster -> string -> string -> pydict string -> cluster * result unit;
  delete_secret : cluster -> string -> string -> cluster * result unit;
  list_secrets : cluster -> string -> option string -> result (pydict Secret)
}.
Arguments namespace_exists {cluster} _ _ _.
Arguments secret_exists {cluster} _ _ _ _.
Arguments create_secret {cluster} _ _ _ _ _ _.
Arguments update_secret {cluster} _ _ _ _ _.
Arguments delete_secret {cluster} _ _ _ _.
Arguments list_secrets {cluster} _ _ _ _.

End k8s.

(** What a run of one of the CLI functions does to the outside world, in
    order: calls into [k8s] and lines written by [print]. *)
Inductive event : Type :=
| NamespaceExists (namespace : string)
| SecretExists (namespace secret : string)
| CreateSecret (namespace secret group : string) (keys_and_values : pydict string)
| UpdateSecret (namespace secret : string) (keys_and_values : pydict string)
| DeleteSecret (namespace secret : string)
| ListSecrets (namespace : string) (group : option string)
| Print (line : string).

Definition is_print (e : event) : bool :=
  match e with Print _ => true | _ => false end.

Definition is_mutation (e : event) : bool :=
  match e with
  | CreateSecret _ _ _ _ | UpdateSecret _ _ _ | DeleteSecret _ _ => true
  | _ => false
  end.

Definition is_create (e : event) : bool :=
  match e with CreateSecret _ _ _ _ => true | _ => false end.

(** The lines printed, the calls into [k8s], the mutating calls. *)
Definition printed (tr : list event) : list string :=
  flat_map (fun e => match e with Print l => [l] | _ => [] end) tr.

Definition store_calls (tr : list event) : list event :=
  filter (fun e => negb (is_print e)) tr.

Definition mutations (tr : list event) : list event := filter is_mutation tr.

(** ** Commands: cluster state, trace and exceptions *)

Section Commands.

Context {cluster : Type}.

Record outcome (A : Type) : Type := mkOutcome {
  final : cluster;
  trace : list event;
  value : result A
}.
Arguments mkOutcome {A} _ _ _.
Arguments final {A} _.
Arguments trace {A} _.
Arguments value {A} _.

Definition M (A : Type) : Type := cluster -> outcome A.

Definition ret {A} (a : A) : M A := fun c => mkOutcome c [] (Ok a).

Definition bind {A B} (m : M A) (k : A -> M B) : M B :=
  fun c =>
    let o := m c in
    match value o with
    | Raise e => mkOutcome (final o) (trace o) (Raise e)
    | Ok a =>
        let o' := k a (final o) in
        mkOutcome (final o') (trace o ++ trace o') (value o')
    end.

Definition lift {A} (r : result A) : M A := fun c => mkOutcome c [] r.

Definition print (line : string) : M unit := fun c => mkOutcome c [Print line] (Ok tt).

(** [try: body except KeyError: handler]; what [body] did before it raised
    stays done. *)
Definition try_except_KeyError {A} (body handler : M A) : M A :=
  fun c =>
    let o := body c in
    match value o with
    | Raise (KeyError _) =>
        let o' := handler (final o) in
        mkOutcome (final o') (trace o ++ trace o') (value o')
    | _ => o
    end.

(** [for x in xs: body x] *)
Fixpoint for_each {A} (xs : list A) (body : A -> M unit) : M unit :=
  match xs with
  | [] => ret tt
  | x :: xs' => bind (body x) (fun _ => for_each xs' body)
  end.

End Commands.

Arguments outcome : clear implicits.
Arguments M : clear implicits.
Arguments mkOutcome {cluster A} _ _ _.
Arguments final {cluster A} _.
Arguments trace {cluster A} _.
Arguments value {cluster A} _.

Declare Scope cmd_scope.
Delimit Scope cmd_scope with cmd.
Notation "x <- m ;; k" := (bind m (fun x => k))
  (at level 100, m at next level, right associativity) : cmd_scope.
Notation "m ;; k" := (bind m (fun _ => k))
  (at level 100, right associativity) : cmd_scope.

(** ** The functions of [secrets.py] that talk to the cluster *)

(** [f"{group}-{name}"] *)
Definition _create_complete_secret_name (group name : string) : string :=
  group ++ "-" ++ name.

(** Truth value of an [Optional[str]]: [None] and the empty string are false. *)
Definition truthy (o : option string) : bool :=
  match o with
  | Some s => negb (String.eqb s EmptyString)
  | None => false
  end.

Definition is_None {A} (o : option A) : bool :=
  match o with None => true | Some _ => false end.

(** How an f-string formats an [Optional[str]]; [cast(str, group)] does
    nothing at run time. *)
Definition format_optional (o : option string) : string :=
  match o with Some s => s | None => "None" end.

(** The f-string [-> {key}={value}] with every newline replaced by the empty
    string. *)
Definition render_line (key value : string) : string :=
  Str.replace Str.newline EmptyString ("-> " ++ key ++ "=" ++ value).

Definition header_line (secret : string) : string :=
  Str.newline ++ "-- " ++ secret ++ ":".

Definition namespace_not_found (namespace : string) : string :=
  "namespace=" ++ namespace ++ " could not be found on k8s cluster".

Definition secret_not_found (secret_name group : string) : string :=
  "secret=" ++ secret_name ++ " could not be found in group=" ++ group.

Definition specify_group : string :=
  "please specify which secrets group the secret belongs to.".

Definition cannot_find (secret_name namespace : string) : string :=
  "cannot find secret=" ++ secret_name ++ " in namespace=" ++ namespace.

Section Secrets.

Context {cluster : Type} (K : k8s.api cluster).

Local Open Scope cmd_scope.

Definition namespace_exists (namespace : string) : M cluster bool :=
  fun c => mkOutcome c [NamespaceExists namespace] (k8s.namespace_exists K c namespace).

Definition secret_exists (namespace secret : string) : M cluster bool :=
  fun c => mkOutcome c [SecretExists namespace secret] (k8s.secret_exists K c namespace secret).

Definition list_secrets (namespace : string) (group : option string)
  : M cluster (pydict Secret) :=
  fun c => mkOutcome c [ListSecrets namespace group] (k8s.list_secrets K c namespace group).

Definition mutate (e : event) (f : cluster -> cluster * result unit) : M cluster unit :=
  fun c => mkOutcome (fst (f c)) [e] (snd (f c)).

Definition create_secret (namespace group secret_name : string)
    (keys_and_values : pydict string) : M cluster unit :=
  found <- namespace_exists namespace ;;
  if negb found then
    print (namespace_not_found namespace)
  else
    let secret := _create_complete_secret_name group secret_name in
    mutate (CreateSecret namespace secret group keys_and_values)
           (fun c => k8s.create_secret K c namespace secret group keys_and_values) ;;
    print ("secret=" ++ secret_name ++ " created in group=" ++ group).

Definition update_secret (namespace group secret_name : string)
    (keys_and_values : pydict string) : M cluster unit :=
  found <- namespace_exists namespace ;;
  if negb found then
    print (namespace_not_found namespace)
  else
    present <- secret_exists namespace (_create_complete_secret_name group secret_name) ;;
    if negb present then
      print (secret_not_found secret_name group)
    else
      let secret := _create_complete_secret_name group secret_name in
      mutate (UpdateSecret namespace secret keys_and_values)
             (fun c => k8s.update_secret K c namespace secret keys_and_values) ;;
      print ("secret=" ++ secret_name ++ " in group=" ++ group ++ " updated").

Definition delete_secret (namespace group secret_name : string) : M cluster unit :=
  found <- namespace_exists namespace ;;
  if negb found then
    print (namespace_not_found namespace)
  else
    present <- secret_exists namespace (_create_complete_secret_name group secret_name) ;;
    if negb present then
      print (secret_not_found secret_name group)
    else
      let secret := _create_complete_secret_name group secret_name in
      mutate (DeleteSecret namespace secret)
             (fun c => k8s.delete_secret K c namespace secret) ;;
      print ("secret=" ++ secret_name ++ " in group=" ++ group
             ++ " deleted from namespace=" ++ namespace).

(** The inner loop of [display_secrets]: one line for each item of a secret. *)
Definition print_items (items : pydict string) : M cluster unit :=
  for_each items (fun kv => print (render_line (fst kv) (snd kv))).

Definition display_secrets (namespace : string) (group secret_name : option string)
  : M cluster unit :=
  found <- namespace_exists namespace ;;
  if negb found then
    print (namespace_not_found namespace)
  else if truthy secret_name && is_None group then
    print specify_group
  else
    secrets <- list_secrets namespace group ;;
    match secret_name with
    | Some secret_name =>
        try_except_KeyError
          (print (header_line secret_name) ;;
           secret <- lift (Dict.getitem secrets
                             (_create_complete_secret_name (format_optional group)
                                                           secret_name)) ;;
           print_items (data secret))
          (print (cannot_find secret_name namespace))
    | None =>
        for_each secrets
          (fun kv => print (header_line (fst kv)) ;; print_items (data (snd kv)))
    end.

End Secrets.

(** ** An in-memory cluster *)

(** Modelled from the spec: the secret store behind the [k8s] module, whose
    code is not among the source files.  Section 6 of the specification gives
    the six operations; here a cluster maps each namespace to its secrets by
    identifier, creation is rejected when the namespace is missing or the
    identifier is taken, and the listing can be narrowed to one group. *)
Module MemStore.

Definition cluster : Type := pydict (pydict Secret).

Fixpoint remove {V} (k : string) (d : pydict V) : pydict V :=
  match d with
  | [] => []
  | (k', v') :: d' => if String.eqb k' k then d' else (k', v') :: remove k d'
  end.

Definition in_dict {V} (k : string) (d : pydict V) : bool :=
  match Dict.get k d with Some _ => true | None => false end.

Definition namespace_exists (c : cluster) (namespace : string) : result bool :=
  Ok (in_dict namespace c).

Definition secret_exists (c : cluster) (namespace secret : string) : result bool :=
  match Dict.get namespace c with
  | Some secrets => Ok (in_dict secret secrets)
  | None => Ok false
  end.

Definition create_secret (c : cluster) (namespace secret group : string)
    (keys_and_values : pydict string) : cluster * result unit :=
  match Dict.get namespace c with
  | None => (c, Raise (ApiException "namespace not found"))
  | Some secrets =>
      if in_dict secret secrets then (c, Raise (ApiException "secret already exists"))
      else (Dict.set namespace
              (Dict.set secret (mkSecret secret group keys_and_values) secrets) c,
            Ok tt)
  end.

Definition update_secret (c : cluster) (namespace secret : string)
    (keys_and_values : pydict string) : cluster * result unit :=
  match Dict.get namespace c with
  | None => (c, Raise (ApiException "namespace not found"))
  | Some secrets =>
      match Dict.get secret secrets with
      | None => (c, Raise (ApiException "secret not found"))
      | Some old =>
          (Dict.set namespace
             (Dict.set secret (mkSecret secret (group old) keys_and_values) secrets) c,
           Ok tt)
      end
  end.

Definition delete_secret (c : cluster) (namespace secret : string)
  : cluster * result unit :=
  match Dict.get namespace c with
  | None => (c, Raise (ApiException "namespace not found"))
  | Some secrets =>
      if in_dict secret secrets
      then (Dict.set namespace (remove secret secrets) c, Ok tt)
      else (c, Raise (ApiException "secret not found"))
  end.

Definition list_secrets (c : cluster) (namespace : string) (grp : option string)
  : result (pydict Secret) :=
  match Dict.get namespace c with
  | None => Raise (ApiException "namespace not found")
  | Some secrets =>
      Ok (match grp with
          | None => secrets
          | Some g => filter (fun kv => String.eqb (group (snd kv)) g) secrets
          end)
  end.

Definition store : k8s.api cluster :=
  {| k8s.namespace_exists := namespace_exists;
     k8s.secret_exists := secret_exists;
     k8s.create_secret := create_secret;
     k8s.update_secret := update_secret;
     k8s.delete_secret := delete_secret;
     k8s.list_secrets := list_secrets |}.

(** A cluster with the namespace [dev] and nothing in it. *)
Definition dev_empty : cluster := [("dev", [])].

(** The namespace [dev] holding the secret [g-n]. *)
Definition dev_one : cluster :=
  [("dev", [("g-n", mkSecret "g-n" "g" [("K", "V")])])].

(** The same secret with a value that spans two lines. *)
Definition dev_two_lines : cluster :=
  [("dev", [("g-n", mkSecret "g-n" "g" [("K", "a" ++ Str.newline ++ "b")])])].

End MemStore.

(** ** What the specification calls things *)

(** A string with its newline characters taken out. *)
Fixpoint without_newlines (s : string) : string :=
  match s with
  | EmptyString => EmptyString
  | String a s' =>
      if Ascii.eqb a "010"%char then without_newlines s'
      else String a (without_newlines s')
  end.

(** The value of the last pair whose key is [k]. *)
Fixpoint last_value (k : string) (pairs : list (string * string)) : option string :=
  match pairs with
  | [] => None
  | (k', v) :: rest =>
      match last_value k rest with
      | Some w => Some w
      | None => if String.eqb k' k then Some v else None
      end
  end.

(** One step of building the dictionary of parsed pairs. *)
Definition insert_pair (acc : pydict string) (kv : string * string) : pydict string :=
  Dict.set (fst kv) (snd kv) acc.

(** The lines [display_secrets] writes for one listed secret. *)
Definition secret_lines (kv : string * Secret) : list event :=
  Print (header_line (fst kv))
  :: map (fun item => Print (render_line (fst item) (snd item))) (data (snd kv)).

(** The request that [display_secrets] turns away: a non-empty name and no
    group. *)
Definition ambiguous (g n : option string) : bool := truthy n && is_None g.

(** A raw string that parses. *)
Definition well_formed (raw : string) : Prop :=
  exists kv, _parse_secret_key_value_pair raw = Ok kv.

(** [sub in s] *)
Definition occurs_in (sub s : string) : bool := 0 <=? Str.find sub s.

(** A raw string that is not of the form KEY=VALUE: no separator, or nothing
    before the first separator, or nothing after it. *)
Definition malformed (raw : string) : Prop :=
  Str.mem "="%char raw = false
  \/ (exists v, raw = "=" ++ v)
  \/ (exists k, Str.mem "="%char k = false /\ raw = k ++ "=").

(** ** Test doubles and further vocabulary *)

(** A store that answers every call from a fixed script and keeps no state,
    as the mocks of a unit test do. *)
Module Canned.

Record answers : Type := mkAnswers {
  namespace_answer : result bool;
  secret_answer : result bool;
  mutation_answer : result unit;
  listing_answer : result (pydict Secret)
}.

Definition store : k8s.api answers :=
  {| k8s.namespace_exists := fun a _ => namespace_answer a;
     k8s.secret_exists := fun a _ _ => secret_answer a;
     k8s.create_secret := fun a _ _ _ _ => (a, mutation_answer a);
     k8s.update_secret := fun a _ _ _ => (a, mutation_answer a);
     k8s.delete_secret := fun a _ _ => (a, mutation_answer a);
     k8s.list_secrets := fun a _ _ => listing_answer a |}.

(** The cluster cannot be reached at all. *)
Definition unreachable : answers :=
  let down := ApiException "connection refused" in
  mkAnswers (Raise down) (Raise down) (Raise down) (Raise down).

(** The guards pass and the mutating call is refused. *)
Definition refused : answers :=
  mkAnswers (Ok true) (Ok true) (Raise (ApiException "forbidden")) (Ok []).

(** The namespace is found and every later call fails; the listing fails
    with a [KeyError] of its own. *)
Definition half_way : answers :=
  mkAnswers (Ok true) (Raise (ApiException "timeout")) (Raise (ApiException "timeout"))
            (Raise (KeyError "items")).

End Canned.

(** The namespace [dev] holding a secret stored under the name "None-". *)
Definition dev_none_dash : MemStore.cluster :=
  [("dev", [("None-", mkSecret "None-" "None" [("K", "V")])])].

(** The namespace [dev] holding the secret [c] of the group [a-b]. *)
Definition dev_dashed : MemStore.cluster :=
  [("dev", [("a-b-c", mkSecret "a-b-c" "a-b" [("K", "V")])])].

(** The keys of [ks] in the order in which each is first met, leaving out
    those of [seen]. *)
Fixpoint first_occurrences (seen ks : list string) : list string :=
  match ks with
  | [] => []
  | k :: rest =>
      if existsb (String.eqb k) seen then first_occurrences seen rest
      else k :: first_occurrences (seen ++ [k]) rest
  end.

(** * Properties *)

Example parse_pair_ex1 :
  _parse_secret_key_value_pair "key=val=ue" = Ok ("key", "val=ue").
Proof. reflexivity. Qed.

Example parse_pair_ex2 :
  _parse_secret_key_value_pair "=value" = Raise (ValueError error_msg).
Proof. reflexivity. Qed.

Example parse_pair_ex3 :
  _parse_secret_key_value_pair "key=" = Raise (ValueError error_msg).
Proof. reflexivity. Qed.

Example parse_map_ex1 :
  parse_cli_secrets_strings ["a=1"; "b=2"; "a=3"] = Ok [("a", "3"); ("b", "2")].
Proof. reflexivity. Qed.

(** ** Strings *)

Lemma prefix_char (c a : ascii) (s : string) :
  prefix (String c EmptyString) (String a s) = Ascii.eqb a c.
Proof.
  simpl. destruct (ascii_dec c a) as [->|Hne].
  - rewrite Ascii.eqb_refl. now destruct s.
  - symmetry. apply Ascii.eqb_neq. congruence.
Qed.

Lemma find_char_cons (c a : ascii) (s : string) :
  Str.find (String c EmptyString) (String a s) =
  if Ascii.eqb a c then 0
  else if Str.find (String c EmptyString) s <? 0 then -1
       else Str.find (String c EmptyString) s + 1.
Proof.
  change (Str.find (String c EmptyString) (String a s))
    with (if prefix (String c EmptyString) (String a s) then 0
          else let r := Str.find (String c EmptyString) s in
               if r <? 0 then -1 else r + 1).
  now rewrite prefix_char.
Qed.

(** Either the character is absent and [find] answers -1, or the string
    splits at its first occurrence and [find] answers the length of what
    comes before. *)
Lemma find_char_spec (c : ascii) (s : string) :
  (Str.mem c s = false /\ Str.find (String c EmptyString) s = -1)
  \/ (exists k v, s = k ++ String c v /\ Str.mem c k = false
                  /\ Str.find (String c EmptyString) s = Z.of_nat (length k)).
Proof.
  induction s as [|a s IH].
  - left. split; reflexivity.
  - rewrite find_char_cons. simpl Str.mem.
    destruct (Ascii.eqb a c) eqn:Hac.
    + right. exists EmptyString, s. apply Ascii.eqb_eq in Hac. subst a.
      repeat split.
    + destruct IH as [[Hm Hf]|(k & v & Hs & Hm & Hf)].
      * left. rewrite Hf. simpl. now split.
      * right. exists (String a k), v. rewrite Hf. subst s. simpl.
        rewrite Hac, Hm. repeat split.
        destruct (Z.of_nat (length k) <? 0) eqn:Hlt; lia.
Qed.

Lemma mem_app (c : ascii) (s t : string) :
  Str.mem c (s ++ t) = Str.mem c s || Str.mem c t.
Proof.
  induction s as [|a s IH]; simpl; [reflexivity|].
  rewrite IH. now rewrite orb_assoc.
Qed.

Lemma length_app (s t : string) : length (s ++ t) = (length s + length t)%nat.
Proof. induction s; simpl; congruence. Qed.

Lemma take_app (k t : string) : Str.take (length k) (k ++ t) = k.
Proof. induction k; simpl; [now destruct t | congruence]. Qed.

Lemma drop_app (k t : string) : Str.drop (length k) (k ++ t) = t.
Proof. induction k; simpl; [now destruct t | congruence]. Qed.

Lemma bound_inside (n len : nat) : (n <= len)%nat -> Str.bound (Z.of_nat n) len = n.
Proof.
  intros H. unfold Str.bound.
  destruct (Z.of_nat n <? 0) eqn:Hlt; [lia|].
  rewrite Z.min_r by lia. apply Nat2Z.id.
Qed.

Lemma slice_to_split (k v : string) (c : ascii) :
  Str.slice_to (k ++ String c v) (Z.of_nat (length k)) = k.
Proof.
  unfold Str.slice_to. rewrite bound_inside.
  - apply take_app.
  - rewrite length_app. lia.
Qed.

Lemma slice_from_split (k v : string) (c : ascii) :
  Str.slice_from (k ++ String c v) (Z.of_nat (length k) + 1) = v.
Proof.
  unfold Str.slice_from.
  replace (Z.of_nat (length k) + 1) with (Z.of_nat (length (k ++ String c EmptyString)))
    by (rewrite length_app; simpl; lia).
  rewrite bound_inside by (rewrite !length_app; simpl; lia).
  replace (k ++ String c v) with ((k ++ String c EmptyString) ++ v).
  - apply drop_app.
  - clear. induction k; simpl; congruence.
Qed.

Lemma length_zero (s : string) : (Z.of_nat (length s) =? 0) = true <-> s = EmptyString.
Proof.
  destruct s; simpl; split; intros H; try reflexivity; discriminate.
Qed.

(** ** The parser of one pair *)

Lemma parse_no_separator (raw : string) :
  Str.mem "="%char raw = false ->
  _parse_secret_key_value_pair raw = Raise (ValueError error_msg).
Proof.
  intros Hm. unfold _parse_secret_key_value_pair.
  destruct (find_char_spec "="%char raw) as [[_ Hf]|(k & v & Hs & _ & _)].
  - now rewrite Hf.
  - subst raw. rewrite mem_app in Hm. simpl in Hm.
    rewrite orb_true_r in Hm. discriminate.
Qed.

(** On a string that splits at its first separator the parser looks at the
    two sides only. *)
Lemma parse_split (k v : string) :
  Str.mem "="%char k = false ->
  _parse_secret_key_value_pair (k ++ "=" ++ v) =
  match k, v with
  | EmptyString, _ | _, EmptyString => Raise (ValueError error_msg)
  | _, _ => Ok (k, v)
  end.
Proof.
  intros Hk. unfold _parse_secret_key_value_pair.
  destruct (find_char_spec "="%char (k ++ "=" ++ v))
    as [[Hm _]|(k' & v' & Hs & Hk' & Hf)].
  - rewrite mem_app in Hm. simpl in Hm. rewrite orb_true_r in Hm. discriminate.
  - assert (Hfk : Str.find "=" (k ++ "=" ++ v) = Z.of_nat (length k)).
    { clear - Hk. induction k as [|a k IH].
      - change (EmptyString ++ "=" ++ v) with (String "="%char v).
        now rewrite find_char_cons.
      - simpl in Hk. apply orb_false_iff in Hk as [Ha Hk].
        change (String a k ++ "=" ++ v) with (String a (k ++ "=" ++ v)).
        rewrite find_char_cons, Ha, (IH Hk).
        destruct (Z.of_nat (length k) <? 0) eqn:Hlt; simpl length; lia. }
    rewrite Hfk.
    destruct (Z.of_nat (length k) =? -1) eqn:Hneg; [lia|].
    change (k ++ "=" ++ v) with (k ++ String "="%char v).
    rewrite slice_to_split, slice_from_split.
    destruct k as [|a k]; [reflexivity|].
    destruct v as [|b v]; reflexivity.
Qed.

Lemma parse_total (raw : string) :
  (exists kv, _parse_secret_key_value_pair raw = Ok kv)
  \/ _parse_secret_key_value_pair raw = Raise (ValueError error_msg).
Proof.
  destruct (find_char_spec "="%char raw) as [[Hm _]|(k & v & Hs & Hk & _)].
  - right. now apply parse_no_separator.
  - subst raw. change (k ++ String "="%char v) with (k ++ "=" ++ v).
    rewrite (parse_split k v Hk).
    destruct k; [now right|]. destruct v; [now right|]. left. eauto.
Qed.

Lemma parse_ok_inv (raw k v : string) :
  _parse_secret_key_value_pair raw = Ok (k, v) ->
  raw = k ++ "=" ++ v /\ Str.mem "="%char k = false
  /\ k <> EmptyString /\ v <> EmptyString.
Proof.
  intros H.
  destruct (find_char_spec "="%char raw) as [[Hm _]|(k' & v' & Hs & Hk & _)].
  - rewrite (parse_no_separator raw Hm) in H. discriminate.
  - subst raw. change (k' ++ String "="%char v') with (k' ++ "=" ++ v') in *.
    rewrite (parse_split k' v' Hk) in H.
    destruct k' as [|a k']; [discriminate|].
    destruct v' as [|b v']; [discriminate|].
    injection H as <- <-. repeat split; try assumption; discriminate.
Qed.

Lemma parse_ok_intro (k v : string) :
  Str.mem "="%char k = false -> k <> EmptyString -> v <> EmptyString ->
  _parse_secret_key_value_pair (k ++ "=" ++ v) = Ok (k, v).
Proof.
  intros Hk Hk0 Hv0. rewrite (parse_split k v Hk).
  destruct k; [congruence|]. destruct v; [congruence|]. reflexivity.
Qed.

Lemma parse_raise_inv (raw : string) (e : exn) :
  _parse_secret_key_value_pair raw = Raise e -> e = ValueError error_msg.
Proof.
  intros H. destruct (parse_total raw) as [[kv Hok]|Hr]; congruence.
Qed.

Lemma malformed_raises (raw : string) :
  malformed raw <-> _parse_secret_key_value_pair raw = Raise (ValueError error_msg).
Proof.
  split.
  - intros [Hm|[[v ->]|(k & Hk & ->)]].
    + now apply parse_no_separator.
    + change ("=" ++ v) with (EmptyString ++ "=" ++ v).
      now rewrite parse_split.
    + change (k ++ "=") with (k ++ "=" ++ EmptyString).
      rewrite (parse_split k EmptyString Hk). now destruct k.
  - intros H.
    destruct (find_char_spec "="%char raw) as [[Hm _]|(k & v & Hs & Hk & _)].
    + now left.
    + subst raw. change (k ++ String "="%char v) with (k ++ "=" ++ v) in *.
      rewrite (parse_split k v Hk) in H.
      destruct k as [|a k].
      * right. left. now exists v.
      * destruct v as [|b v]; [|discriminate].
        right. right. exists (String a k). now split.
Qed.

(** C5.  [_parse_secret_key_value_pair] raises its [ValueError] exactly on the
    strings with no "=", with nothing before the first "=" or with nothing
    after it, and raises nothing else; on every other string it returns the
    text before the first "=" and the text after it, so that "key=val=ue"
    gives ("key", "val=ue"). *)
Theorem parse_pair_contract :
  (forall raw,
      _parse_secret_key_value_pair raw = Raise (ValueError error_msg) <-> malformed raw)
  /\ (forall raw e, _parse_secret_key_value_pair raw = Raise e -> e = ValueError error_msg)
  /\ (forall raw, malformed raw \/ exists k v, _parse_secret_key_value_pair raw = Ok (k, v))
  /\ (forall raw k v,
        _parse_secret_key_value_pair raw = Ok (k, v) <->
        raw = k ++ "=" ++ v /\ Str.mem "="%char k = false
        /\ k <> EmptyString /\ v <> EmptyString)
  /\ _parse_secret_key_value_pair "key=val=ue" = Ok ("key", "val=ue").
Proof.
  split; [|split; [|split; [|split]]].
  - intros raw. symmetry. apply malformed_raises.
  - apply parse_raise_inv.
  - intros raw. destruct (parse_total raw) as [[[k v] Hok]|Hr].
    + right. eauto.
    + left. now apply malformed_raises.
  - intros raw k v. split.
    + apply parse_ok_inv.
    + intros (-> & Hk & Hk0 & Hv0). now apply parse_ok_intro.
  - reflexivity.
Qed.

(** C10.  When [_parse_secret_key_value_pair] returns [(key, value)], the key
    holds no "=", neither part is empty, and key, "=" and value put together
    give the input back. *)
Theorem parse_pair_lossless (raw key value : string) :
  _parse_secret_key_value_pair raw = Ok (key, value) ->
  Str.mem "="%char key = false
  /\ key <> EmptyString /\ value <> EmptyString
  /\ key ++ "=" ++ value = raw.
Proof.
  intros H. apply parse_ok_inv in H as (-> & Hk & Hk0 & Hv0). repeat split; assumption.
Qed.

Lemma parse_pair_lossless_witness :
  Str.mem "="%char "key" = false
  /\ "key" <> EmptyString /\ "val=ue" <> EmptyString
  /\ "key" ++ "=" ++ "val=ue" = "key=val=ue".
Proof. apply (parse_pair_lossless "key=val=ue" "key" "val=ue"). reflexivity. Defined.

(** ** Dictionaries and the parser of a sequence *)

Lemma get_set {V} (k k' : string) (v : V) (d : pydict V) :
  Dict.get k (Dict.set k' v d) = if String.eqb k' k then Some v else Dict.get k d.
Proof.
  induction d as [|[k0 v0] d IH]; simpl.
  - reflexivity.
  - destruct (String.eqb k0 k') eqn:H0; simpl.
    + apply String.eqb_eq in H0. subst k0. now destruct (String.eqb k' k).
    + destruct (String.eqb k0 k) eqn:H1.
      * apply String.eqb_eq in H1. subst k0.
        rewrite String.eqb_sym in H0. now rewrite H0.
      * exact IH.
Qed.

Lemma keys_set {V} (k : string) (v : V) (d : pydict V) (k0 : string) :
  In k0 (Dict.keys (Dict.set k v d)) <-> k0 = k \/ In k0 (Dict.keys d).
Proof.
  induction d as [|[k1 v1] d IH]; simpl.
  - intuition.
  - destruct (String.eqb k1 k) eqn:H1; simpl.
    + apply String.eqb_eq in H1. subst k1. intuition.
    + unfold Dict.keys in IH. rewrite IH. intuition.
Qed.

Lemma nodup_set {V} (k : string) (v : V) (d : pydict V) :
  NoDup (Dict.keys d) -> NoDup (Dict.keys (Dict.set k v d)).
Proof.
  induction d as [|[k1 v1] d IH]; simpl; intros Hd.
  - constructor; [intros []|constructor].
  - inversion Hd as [|? ? Hnin Hd']; subst.
    destruct (String.eqb k1 k) eqn:H1; simpl.
    + apply String.eqb_eq in H1. subst k1. now constructor.
    + constructor; [|now apply IH].
      intros Hin. apply (keys_set k v d k1) in Hin as [->|Hin].
      * rewrite String.eqb_refl in H1. discriminate.
      * now apply Hnin.
Qed.

Lemma get_fold (k : string) (pairs : list (string * string)) :
  forall acc,
    Dict.get k (fold_left insert_pair pairs acc) =
    match last_value k pairs with
    | Some w => Some w
    | None => Dict.get k acc
    end.
Proof.
  induction pairs as [|[k' v] rest IH]; intros acc; simpl.
  - reflexivity.
  - rewrite IH. destruct (last_value k rest); [reflexivity|].
    unfold insert_pair. simpl. rewrite get_set. now destruct (String.eqb k' k).
Qed.

Lemma nodup_fold (pairs : list (string * string)) :
  forall acc, NoDup (Dict.keys acc) -> NoDup (Dict.keys (fold_left insert_pair pairs acc)).
Proof.
  induction pairs as [|kv rest IH]; intros acc Hacc; simpl.
  - exact Hacc.
  - apply IH. now apply nodup_set.
Qed.

Lemma dict_of_parsed_ok (raws : list string) :
  forall pairs acc,
    map _parse_secret_key_value_pair raws = map Ok pairs ->
    dict_of_parsed raws acc = Ok (fold_left insert_pair pairs acc).
Proof.
  induction raws as [|raw raws IH]; intros [|[k v] pairs] acc H; simpl in *;
    try discriminate.
  - reflexivity.
  - injection H as H1 H2. rewrite H1. now apply IH.
Qed.

Lemma dict_of_parsed_stops (pre : list string) (bad : string) (e : exn) :
  Forall well_formed pre ->
  _parse_secret_key_value_pair bad = Raise e ->
  forall post acc, dict_of_parsed (pre ++ bad :: post) acc = Raise e.
Proof.
  intros Hpre Hbad post. induction Hpre as [|raw pre [[k v] Hok] _ IH]; intros acc; simpl.
  - now rewrite Hbad.
  - rewrite Hok. apply IH.
Qed.

Lemma first_malformed (raws : list string) :
  Exists malformed raws ->
  exists pre bad post,
    raws = (pre ++ bad :: post)%list /\ Forall well_formed pre /\ malformed bad.
Proof.
  induction raws as [|raw raws IH]; intros H.
  - inversion H.
  - destruct (parse_total raw) as [Hok|Hr].
    + inversion H as [? ? Hm|? ? Hex]; subst.
      * apply malformed_raises in Hm. destruct Hok as [kv Hok]. congruence.
      * destruct (IH Hex) as (pre & bad & post & -> & Hpre & Hbad).
        exists (raw :: pre), bad, post. repeat split; [|assumption].
        now constructor.
    + exists [], raw, raws. repeat split; [constructor|].
      now apply malformed_raises.
Qed.

(** C6.  On strings that all parse, [parse_cli_secrets_strings] returns the
    dictionary got by inserting the parsed pairs in order: each key maps to
    the value of the last pair that has it, no key is held twice and nothing
    is raised; ["a=1"; "b=2"; "a=3"] gives {a: "3", b: "2"}. *)
Theorem parse_cli_secrets_strings_last_wins :
  (forall raws pairs,
      map _parse_secret_key_value_pair raws = map Ok pairs ->
      exists d,
        parse_cli_secrets_strings raws = Ok d
        /\ d = fold_left insert_pair pairs []
        /\ (forall k, Dict.get k d = last_value k pairs)
        /\ NoDup (Dict.keys d))
  /\ parse_cli_secrets_strings ["a=1"; "b=2"; "a=3"] = Ok [("a", "3"); ("b", "2")].
Proof.
  split; [|reflexivity].
  intros raws pairs H. exists (fold_left insert_pair pairs []).
  split; [now apply dict_of_parsed_ok|]. split; [reflexivity|]. split.
  - intros k. rewrite get_fold. now destruct (last_value k pairs).
  - apply nodup_fold. constructor.
Qed.

Lemma parse_cli_secrets_strings_last_wins_witness :
  exists d,
    parse_cli_secrets_strings ["x=1"; "y=2"; "x=3=4"] = Ok d
    /\ d = fold_left insert_pair [("x", "1"); ("y", "2"); ("x", "3=4")] []
    /\ (forall k, Dict.get k d = last_value k [("x", "1"); ("y", "2"); ("x", "3=4")])
    /\ NoDup (Dict.keys d).
Proof.
  apply (proj1 parse_cli_secrets_strings_last_wins
           ["x=1"; "y=2"; "x=3=4"] [("x", "1"); ("y", "2"); ("x", "3=4")]).
  reflexivity.
Defined.

(** C7.  A sequence with a malformed entry splits at its first malformed
    entry: everything before it parses, and [parse_cli_secrets_strings]
    raises the very exception the pair parser raises on that entry, whatever
    comes after it. *)
Theorem parse_cli_secrets_strings_fails_fast (raws : list string) :
  Exists malformed raws ->
  exists pre bad post e,
    raws = (pre ++ bad :: post)%list
    /\ Forall well_formed pre
    /\ _parse_secret_key_value_pair bad = Raise e
    /\ e = ValueError error_msg
    /\ parse_cli_secrets_strings raws = Raise e
    /\ (forall rest, parse_cli_secrets_strings (pre ++ bad :: rest) = Raise e).
Proof.
  intros H. destruct (first_malformed raws H) as (pre & bad & post & -> & Hpre & Hbad).
  apply malformed_raises in Hbad.
  exists pre, bad, post, (ValueError error_msg).
  repeat split; try assumption;
    intros; unfold parse_cli_secrets_strings; now apply dict_of_parsed_stops.
Qed.

Lemma parse_cli_secrets_strings_fails_fast_witness :
  exists pre bad post e,
    ["a=1"; "b"; "=c"; "d=4"] = (pre ++ bad :: post)%list
    /\ Forall well_formed pre
    /\ _parse_secret_key_value_pair bad = Raise e
    /\ e = ValueError error_msg
    /\ parse_cli_secrets_strings ["a=1"; "b"; "=c"; "d=4"] = Raise e
    /\ (forall rest, parse_cli_secrets_strings (pre ++ bad :: rest) = Raise e).
Proof.
  apply (parse_cli_secrets_strings_fails_fast ["a=1"; "b"; "=c"; "d=4"]).
  apply Exists_cons_tl, Exists_cons_hd. left. reflexivity.
Defined.

(** ** The guarded operations, case by case *)

Section Runs.

Context {cluster : Type} (K : k8s.api cluster) (c : cluster).
Variables namespace grp secret_name : string.
Variable keys_and_values : pydict string.

Let secret := _create_complete_secret_name grp secret_name.

Ltac run H := cbv beta delta [bind namespace_exists secret_exists list_secrets
                              print mutate lift try_except_KeyError] in *;
              cbn [value final trace]; rewrite ?H; cbn [value final trace negb app].

Lemma create_secret_no_namespace :
  k8s.namespace_exists K c namespace = Ok false ->
  create_secret K namespace grp secret_name keys_and_values c =
  mkOutcome c [NamespaceExists namespace; Print (namespace_not_found namespace)] (Ok tt).
Proof. intros H. unfold create_secret. run H. reflexivity. Qed.

Lemma update_secret_no_namespace :
  k8s.namespace_exists K c namespace = Ok false ->
  update_secret K namespace grp secret_name keys_and_values c =
  mkOutcome c [NamespaceExists namespace; Print (namespace_not_found namespace)] (Ok tt).
Proof. intros H. unfold update_secret. run H. reflexivity. Qed.

Lemma delete_secret_no_namespace :
  k8s.namespace_exists K c namespace = Ok false ->
  delete_secret K namespace grp secret_name c =
  mkOutcome c [NamespaceExists namespace; Print (namespace_not_found namespace)] (Ok tt).
Proof. intros H. unfold delete_secret. run H. reflexivity. Qed.

Lemma display_secrets_no_namespace (g n : option string) :
  k8s.namespace_exists K c namespace = Ok false ->
  display_secrets K namespace g n c =
  mkOutcome c [NamespaceExists namespace; Print (namespace_not_found namespace)] (Ok tt).
Proof. intros H. unfold display_secrets. run H. reflexivity. Qed.

(** With the namespace in place [create_secret] hands the composed name, the
    group and the mapping to [k8s.create_secret], and reports the creation
    when that call returns. *)
Lemma create_secret_namespace :
  k8s.namespace_exists K c namespace = Ok true ->
  create_secret K namespace grp secret_name keys_and_values c =
  let r := k8s.create_secret K c namespace secret grp keys_and_values in
  mkOutcome (fst r)
    ([NamespaceExists namespace; CreateSecret namespace secret grp keys_and_values]
     ++ match snd r with
        | Ok _ => [Print ("secret=" ++ secret_name ++ " created in group=" ++ grp)]
        | Raise _ => []
        end)
    (snd r).
Proof.
  intros H. unfold create_secret. run H. fold secret.
  destruct (k8s.create_secret K c namespace secret grp keys_and_values) as [c' [[]|e]];
    reflexivity.
Qed.

Lemma update_secret_no_secret :
  k8s.namespace_exists K c namespace = Ok true ->
  k8s.secret_exists K c namespace secret = Ok false ->
  update_secret K namespace grp secret_name keys_and_values c =
  mkOutcome c [NamespaceExists namespace; SecretExists namespace secret;
               Print (secret_not_found secret_name grp)] (Ok tt).
Proof.
  intros H1 H2. unfold update_secret. run H1. fold secret. rewrite H2. reflexivity.
Qed.

Lemma delete_secret_no_secret :
  k8s.namespace_exists K c namespace = Ok true ->
  k8s.secret_exists K c namespace secret = Ok false ->
  delete_secret K namespace grp secret_name c =
  mkOutcome c [NamespaceExists namespace; SecretExists namespace secret;
               Print (secret_not_found secret_name grp)] (Ok tt).
Proof.
  intros H1 H2. unfold delete_secret. run H1. fold secret. rewrite H2. reflexivity.
Qed.

Lemma display_secrets_no_group :
  k8s.namespace_exists K c namespace = Ok true ->
  secret_name <> EmptyString ->
  display_secrets K namespace None (Some secret_name) c =
  mkOutcome c [NamespaceExists namespace; Print specify_group] (Ok tt).
Proof.
  intros H Hn. unfold display_secrets. run H.
  destruct (String.eqb secret_name EmptyString) eqn:He.
  - apply String.eqb_eq in He. contradiction.
  - unfold truthy. rewrite He. reflexivity.
Qed.

(** A loop whose body only writes lines writes them in order. *)
Lemma for_each_run {A} (body : A -> M cluster unit) (lines : A -> list event) :
  (forall x c0, body x c0 = mkOutcome c0 (lines x) (Ok tt)) ->
  forall xs c0, for_each xs body c0 = mkOutcome c0 (flat_map lines xs) (Ok tt).
Proof.
  intros Hbody xs. induction xs as [|x xs IH]; intros c0.
  - reflexivity.
  - cbn [for_each flat_map]. unfold bind. rewrite Hbody. cbn [value final trace].
    rewrite IH. reflexivity.
Qed.

Lemma print_items_run (items : pydict string) (c0 : cluster) :
  print_items (cluster := cluster) items c0 =
  mkOutcome c0 (map (fun kv => Print (render_line (fst kv) (snd kv))) items) (Ok tt).
Proof.
  unfold print_items.
  rewrite (for_each_run _ (fun kv => [Print (render_line (fst kv) (snd kv))]))
    by reflexivity.
  f_equal.
Qed.

Lemma display_all_run (secrets : pydict Secret) (c0 : cluster) :
  for_each secrets
    (fun kv => bind (print (header_line (fst kv)))
                    (fun _ => print_items (cluster := cluster) (data (snd kv)))) c0 =
  mkOutcome c0 (flat_map secret_lines secrets) (Ok tt).
Proof.
  apply for_each_run. intros kv c1.
  unfold bind. cbn [print value final trace]. rewrite print_items_run. reflexivity.
Qed.

Lemma display_secrets_named (g : option string) (secrets : pydict Secret) :
  k8s.namespace_exists K c namespace = Ok true ->
  ambiguous g (Some secret_name) = false ->
  k8s.list_secrets K c namespace g = Ok secrets ->
  display_secrets K namespace g (Some secret_name) c =
  mkOutcome c
    ([NamespaceExists namespace; ListSecrets namespace g;
      Print (header_line secret_name)]
     ++ match Dict.get (_create_complete_secret_name (format_optional g) secret_name)
                       secrets with
        | Some found =>
            map (fun item => Print (render_line (fst item) (snd item))) (data found)
        | None => [Print (cannot_find secret_name namespace)]
        end)
    (Ok tt).
Proof.
  intros H Ha Hl. unfold display_secrets. run H.
  unfold ambiguous in Ha. rewrite Ha. rewrite Hl. cbn [value final trace app].
  unfold Dict.getitem.
  destruct (Dict.get _ secrets) as [found|]; cbn [value final trace app].
  - rewrite print_items_run. reflexivity.
  - reflexivity.
Qed.

Lemma display_secrets_all (g : option string) (secrets : pydict Secret) :
  k8s.namespace_exists K c namespace = Ok true ->
  k8s.list_secrets K c namespace g = Ok secrets ->
  display_secrets K namespace g None c =
  mkOutcome c
    ([NamespaceExists namespace; ListSecrets namespace g] ++ flat_map secret_lines secrets)
    (Ok tt).
Proof.
  intros H Hl. unfold display_secrets.
  cbv beta delta [bind namespace_exists list_secrets] in *.
  cbn [value final trace]. rewrite H. cbn [value final trace negb truthy andb].
  rewrite Hl. cbn [value final trace].
  change (fun kv : string * Secret =>
            fun c0 : cluster => _) with
    (fun kv : string * Secret =>
       bind (print (header_line (fst kv)))
            (fun _ => print_items (cluster := cluster) (data (snd kv)))).
  rewrite display_all_run. reflexivity.
Qed.

End Runs.

(** ** Rendering *)

Lemma replace_newline (s : string) :
  Str.replace Str.newline EmptyString s = without_newlines s.
Proof.
  unfold Str.replace. induction s as [|a s IH].
  - reflexivity.
  - cbn [Str.replace_from without_newlines]. unfold Str.newline at 1.
    rewrite prefix_char. cbn [length Nat.pred]. rewrite IH.
    now destruct (Ascii.eqb a "010").
Qed.

Lemma without_newlines_app (s t : string) :
  without_newlines (s ++ t) = without_newlines s ++ without_newlines t.
Proof.
  induction s as [|a s IH]; simpl; [reflexivity|].
  rewrite IH. now destruct (Ascii.eqb a "010").
Qed.

Lemma without_newlines_mem (s : string) :
  Str.mem "010"%char (without_newlines s) = false.
Proof.
  induction s as [|a s IH]; simpl; [reflexivity|].
  destruct (Ascii.eqb a "010") eqn:Ha; [exact IH|].
  simpl. now rewrite Ha, IH.
Qed.

Lemma without_newlines_id (s : string) :
  Str.mem "010"%char s = false -> without_newlines s = s.
Proof.
  induction s as [|a s IH]; simpl; [reflexivity|].
  intros H. apply orb_false_iff in H as [Ha Hs]. rewrite Ha. now rewrite IH.
Qed.

Lemma render_line_spec (key value : string) :
  render_line key value = "-> " ++ without_newlines key ++ "=" ++ without_newlines value.
Proof.
  unfold render_line. rewrite replace_newline.
  change ("-> " ++ key ++ "=" ++ value)
    with (String "-" (String ">" (String " " (key ++ "=" ++ value)))).
  cbn [without_newlines]. simpl Ascii.eqb. cbv iota.
  rewrite without_newlines_app. reflexivity.
Qed.

Lemma render_line_single (key value : string) :
  Str.mem "010"%char (render_line key value) = false.
Proof. unfold render_line. rewrite replace_newline. apply without_newlines_mem. Qed.

Lemma printed_app (tr1 tr2 : list event) :
  printed (tr1 ++ tr2) = (printed tr1 ++ printed tr2)%list.
Proof. apply flat_map_app. Qed.

Lemma printed_lines (items : pydict string) :
  printed (map (fun item => Print (render_line (fst item) (snd item))) items) =
  map (fun item => render_line (fst item) (snd item)) items.
Proof. induction items as [|kv items IH]; simpl; congruence. Qed.

Lemma store_calls_lines (items : pydict string) :
  store_calls (map (fun item => Print (render_line (fst item) (snd item))) items) = [].
Proof. induction items as [|kv items IH]; simpl; congruence. Qed.

(** ** Guards and reports *)

(** C1.  Without the namespace [create_secret] prints the namespace message
    and never calls [k8s.create_secret]; with it, [k8s.create_secret] is
    called exactly once, with the name "group-name", the group and the
    mapping, and what that call does and returns is what [create_secret]
    does and returns. *)
Theorem create_secret_guard :
  forall (cluster : Type) (K : k8s.api cluster) (c : cluster)
         (namespace grp secret_name : string) (kv : pydict string),
    (k8s.namespace_exists K c namespace = Ok false ->
     let o := create_secret K namespace grp secret_name kv c in
     o = mkOutcome c [NamespaceExists namespace; Print (namespace_not_found namespace)]
                   (Ok tt)
     /\ filter is_create (trace o) = [])
    /\ (k8s.namespace_exists K c namespace = Ok true ->
        let o := create_secret K namespace grp secret_name kv c in
        filter is_create (trace o) =
          [CreateSecret namespace (grp ++ "-" ++ secret_name) grp kv]
        /\ store_calls (trace o) =
             [NamespaceExists namespace;
              CreateSecret namespace (grp ++ "-" ++ secret_name) grp kv]
        /\ (final o, value o) =
             k8s.create_secret K c namespace (grp ++ "-" ++ secret_name) grp kv).
Proof.
  intros cluster K c namespace grp secret_name kv. split; intros H o; subst o.
  - rewrite (create_secret_no_namespace K c namespace grp secret_name kv H).
    split; reflexivity.
  - rewrite (create_secret_namespace K c namespace grp secret_name kv H).
    unfold _create_complete_secret_name. cbv zeta. cbn [trace final value].
    destruct (k8s.create_secret K c namespace (grp ++ "-" ++ secret_name) grp kv)
      as [c' [[]|e]]; repeat split.
Qed.

Lemma create_secret_guard_witness :
  (let o := create_secret MemStore.store "prod" "g" "n" [("K", "V")] MemStore.dev_empty in
   o = mkOutcome MemStore.dev_empty
         [NamespaceExists "prod"; Print (namespace_not_found "prod")] (Ok tt)
   /\ filter is_create (trace o) = [])
  /\ (let o := create_secret MemStore.store "dev" "g" "n" [("K", "V")] MemStore.dev_empty in
      filter is_create (trace o) = [CreateSecret "dev" ("g" ++ "-" ++ "n") "g" [("K", "V")]]
      /\ store_calls (trace o) =
           [NamespaceExists "dev"; CreateSecret "dev" ("g" ++ "-" ++ "n") "g" [("K", "V")]]
      /\ (final o, value o) =
           k8s.create_secret MemStore.store MemStore.dev_empty "dev" ("g" ++ "-" ++ "n") "g"
                             [("K", "V")]).
Proof.
  split.
  - apply (proj1 (create_secret_guard _ MemStore.store MemStore.dev_empty
                                      "prod" "g" "n" [("K", "V")])).
    reflexivity.
  - apply (proj2 (create_secret_guard _ MemStore.store MemStore.dev_empty
                                      "dev" "g" "n" [("K", "V")])).
    reflexivity.
Defined.

(** C2.  [update_secret] and [delete_secret] ask for the namespace first and
    stop there when it is missing; only with the namespace in place do they
    ask for the secret, under the name "group-name", and when that is missing
    they print the secret message and return with no mutating call made and
    the cluster as it was. *)
Theorem update_delete_guards :
  forall (cluster : Type) (K : k8s.api cluster) (c : cluster)
         (namespace grp secret_name : string) (kv : pydict string),
    (k8s.namespace_exists K c namespace = Ok false ->
     let stop := mkOutcome c [NamespaceExists namespace;
                              Print (namespace_not_found namespace)] (Ok tt) in
     update_secret K namespace grp secret_name kv c = stop
     /\ delete_secret K namespace grp secret_name c = stop)
    /\ (k8s.namespace_exists K c namespace = Ok true ->
        k8s.secret_exists K c namespace (grp ++ "-" ++ secret_name) = Ok false ->
        let stop := mkOutcome c [NamespaceExists namespace;
                                 SecretExists namespace (grp ++ "-" ++ secret_name);
                                 Print (secret_not_found secret_name grp)] (Ok tt) in
        update_secret K namespace grp secret_name kv c = stop
        /\ delete_secret K namespace grp secret_name c = stop
        /\ mutations (trace (update_secret K namespace grp secret_name kv c)) = []
        /\ mutations (trace (delete_secret K namespace grp secret_name c)) = []).
Proof.
  intros cluster K c namespace grp secret_name kv. split.
  - intros H stop. split.
    + now apply update_secret_no_namespace.
    + now apply delete_secret_no_namespace.
  - intros H1 H2 stop.
    pose proof (update_secret_no_secret K c namespace grp secret_name kv H1 H2) as Hu.
    pose proof (delete_secret_no_secret K c namespace grp secret_name H1 H2) as Hd.
    rewrite Hu, Hd. repeat split.
Qed.

Lemma update_delete_guards_witness :
  (let stop := mkOutcome MemStore.dev_one
                 [NamespaceExists "prod"; Print (namespace_not_found "prod")] (Ok tt) in
   update_secret MemStore.store "prod" "g" "n" [("K", "W")] MemStore.dev_one = stop
   /\ delete_secret MemStore.store "prod" "g" "n" MemStore.dev_one = stop)
  /\ (let stop := mkOutcome MemStore.dev_one
                    [NamespaceExists "dev"; SecretExists "dev" ("g" ++ "-" ++ "m");
                     Print (secret_not_found "m" "g")] (Ok tt) in
      update_secret MemStore.store "dev" "g" "m" [("K", "W")] MemStore.dev_one = stop
      /\ delete_secret MemStore.store "dev" "g" "m" MemStore.dev_one = stop
      /\ mutations (trace (update_secret MemStore.store "dev" "g" "m" [("K", "W")]
                                         MemStore.dev_one)) = []
      /\ mutations (trace (delete_secret MemStore.store "dev" "g" "m"
                                         MemStore.dev_one)) = []).
Proof.
  split.
  - apply (proj1 (update_delete_guards _ MemStore.store MemStore.dev_one
                                       "prod" "g" "n" [("K", "W")])).
    reflexivity.
  - apply (proj2 (update_delete_guards _ MemStore.store MemStore.dev_one
                                       "dev" "g" "m" [("K", "W")]));
      reflexivity.
Defined.

Lemma display_secrets_namespace_raises {cluster : Type} (K : k8s.api cluster)
    (c : cluster) (namespace : string) (g n : option string) (e : exn) :
  k8s.namespace_exists K c namespace = Raise e ->
  display_secrets K namespace g n c = mkOutcome c [NamespaceExists namespace] (Raise e).
Proof.
  intros H. unfold display_secrets, bind, namespace_exists.
  cbn [value final trace]. rewrite H. reflexivity.
Qed.

Lemma display_secrets_list_raises {cluster : Type} (K : k8s.api cluster)
    (c : cluster) (namespace : string) (g n : option string) (e : exn) :
  k8s.namespace_exists K c namespace = Ok true ->
  ambiguous g n = false ->
  k8s.list_secrets K c namespace g = Raise e ->
  display_secrets K namespace g n c =
  mkOutcome c [NamespaceExists namespace; ListSecrets namespace g] (Raise e).
Proof.
  intros H Ha Hl. unfold display_secrets, bind, namespace_exists, list_secrets.
  cbn [value final trace]. rewrite H. cbn [negb value final trace].
  unfold ambiguous in Ha. rewrite Ha. cbn [value final trace]. rewrite Hl.
  reflexivity.
Qed.

Lemma ambiguous_inv (g n : option string) :
  ambiguous g n = true -> g = None /\ exists s, n = Some s /\ s <> EmptyString.
Proof.
  unfold ambiguous. intros H. apply andb_true_iff in H as [Hn Hg].
  destruct g; [discriminate|]. split; [reflexivity|].
  destruct n as [s|]; [|discriminate]. exists s. split; [reflexivity|].
  intros ->. discriminate.
Qed.

Lemma mutations_lines (items : pydict string) :
  mutations (map (fun item => Print (render_line (fst item) (snd item))) items) = [].
Proof. induction items as [|kv items IH]; simpl; congruence. Qed.

Lemma mutations_secret_lines (secrets : pydict Secret) :
  mutations (flat_map secret_lines secrets) = [].
Proof.
  induction secrets as [|kv rest IH]; [reflexivity|].
  cbn [flat_map]. unfold mutations in *. rewrite filter_app, IH.
  unfold secret_lines. cbn [filter is_mutation].
  fold (mutations (map (fun item => Print (render_line (fst item) (snd item)))
                       (data (snd kv)))).
  now rewrite mutations_lines.
Qed.

(** [display_secrets] reads and prints: it leaves the cluster alone, and an
    exception leaves it only when one of its two calls into [k8s] raised it. *)
Lemma display_secrets_reads_only {cluster : Type} (K : k8s.api cluster)
    (c : cluster) (namespace : string) (g n : option string) :
  let o := display_secrets K namespace g n c in
  final o = c
  /\ mutations (trace o) = []
  /\ (value o = Ok tt
      \/ exists e, value o = Raise e
                   /\ (k8s.namespace_exists K c namespace = Raise e
                       \/ k8s.list_secrets K c namespace g = Raise e)).
Proof.
  cbv zeta.
  destruct (k8s.namespace_exists K c namespace) as [[|]|e] eqn:Hns.
  - destruct (ambiguous g n) eqn:Ha.
    + apply ambiguous_inv in Ha as (-> & s & -> & Hs).
      rewrite (display_secrets_no_group K c namespace s Hns Hs). repeat split. now left.
    + destruct (k8s.list_secrets K c namespace g) as [secrets|e] eqn:Hl.
      * destruct n as [s|].
        -- rewrite (display_secrets_named K c namespace s g secrets Hns Ha Hl).
           cbn [final trace value]. repeat split; [|now left].
           unfold mutations. rewrite filter_app. cbn [filter is_mutation app].
           destruct (Dict.get _ secrets) as [found|]; [|reflexivity].
           apply mutations_lines.
        -- rewrite (display_secrets_all K c namespace g secrets Hns Hl).
           cbn [final trace value]. repeat split; [|now left].
           unfold mutations. rewrite filter_app. cbn [filter is_mutation app].
           apply mutations_secret_lines.
      * rewrite (display_secrets_list_raises K c namespace g n e Hns Ha Hl).
        repeat split. right. exists e. split; [reflexivity|now right].
  - rewrite (display_secrets_no_namespace K c namespace g n Hns). repeat split. now left.
  - rewrite (display_secrets_namespace_raises K c namespace g n e Hns).
    repeat split. right. exists e. split; [reflexivity|now left].
Qed.

(** C3.  Every not-found condition ends in a normal return, with the cluster
    untouched and nothing done but reading and printing: a missing namespace
    in each of the four cluster operations, a missing secret in update and
    delete, a non-empty name without a group in display, and in display a
    named secret that the listing does not hold, where the [KeyError] of the
    lookup is caught and the cannot-find message follows the header line.
    Whatever it is asked, [display_secrets] makes no mutating call, and lets
    out no exception but one raised by [k8s] itself.
    (The parser takes no namespace and no secret: it has no such condition.) *)
Theorem not_found_is_reported :
  forall (cluster : Type) (K : k8s.api cluster) (c : cluster)
         (namespace grp secret_name : string) (kv : pydict string),
    (k8s.namespace_exists K c namespace = Ok false ->
     forall g n,
       let stop := mkOutcome c [NamespaceExists namespace;
                                Print (namespace_not_found namespace)] (Ok tt) in
       create_secret K namespace grp secret_name kv c = stop
       /\ update_secret K namespace grp secret_name kv c = stop
       /\ delete_secret K namespace grp secret_name c = stop
       /\ display_secrets K namespace g n c = stop)
    /\ (k8s.namespace_exists K c namespace = Ok true ->
        k8s.secret_exists K c namespace (grp ++ "-" ++ secret_name) = Ok false ->
        let stop := mkOutcome c [NamespaceExists namespace;
                                 SecretExists namespace (grp ++ "-" ++ secret_name);
                                 Print (secret_not_found secret_name grp)] (Ok tt) in
        update_secret K namespace grp secret_name kv c = stop
        /\ delete_secret K namespace grp secret_name c = stop)
    /\ (k8s.namespace_exists K c namespace = Ok true ->
        secret_name <> EmptyString ->
        display_secrets K namespace None (Some secret_name) c =
        mkOutcome c [NamespaceExists namespace; Print specify_group] (Ok tt))
    /\ (k8s.namespace_exists K c namespace = Ok true ->
        forall g secrets,
          ambiguous g (Some secret_name) = false ->
          k8s.list_secrets K c namespace g = Ok secrets ->
          Dict.get (format_optional g ++ "-" ++ secret_name) secrets = None ->
          display_secrets K namespace g (Some secret_name) c =
          mkOutcome c [NamespaceExists namespace; ListSecrets namespace g;
                       Print (header_line secret_name);
                       Print (cannot_find secret_name namespace)] (Ok tt))
    /\ (forall g n,
          let o := display_secrets K namespace g n c in
          final o = c
          /\ mutations (trace o) = []
          /\ (value o = Ok tt
              \/ exists e, value o = Raise e
                           /\ (k8s.namespace_exists K c namespace = Raise e
                               \/ k8s.list_secrets K c namespace g = Raise e))).
Proof.
  intros cluster K c namespace grp secret_name kv.
  split; [|split; [|split; [|split]]]; [| | | |apply display_secrets_reads_only].
  - intros H g n stop. repeat split.
    + now apply create_secret_no_namespace.
    + now apply update_secret_no_namespace.
    + now apply delete_secret_no_namespace.
    + now apply display_secrets_no_namespace.
  - intros H1 H2 stop. split.
    + now apply update_secret_no_secret.
    + now apply delete_secret_no_secret.
  - intros H Hn. now apply display_secrets_no_group.
  - intros H g secrets Ha Hl Hg.
    rewrite (display_secrets_named K c namespace secret_name g secrets H Ha Hl).
    unfold _create_complete_secret_name. now rewrite Hg.
Qed.

Lemma not_found_is_reported_witness :
  (let stop := mkOutcome MemStore.dev_one
                 [NamespaceExists "prod"; Print (namespace_not_found "prod")] (Ok tt) in
   create_secret MemStore.store "prod" "g" "m" [("K", "W")] MemStore.dev_one = stop
   /\ update_secret MemStore.store "prod" "g" "m" [("K", "W")] MemStore.dev_one = stop
   /\ delete_secret MemStore.store "prod" "g" "m" MemStore.dev_one = stop
   /\ display_secrets MemStore.store "prod" (Some "g") (Some "m") MemStore.dev_one = stop)
  /\ (let stop := mkOutcome MemStore.dev_one
                    [NamespaceExists "dev"; SecretExists "dev" ("g" ++ "-" ++ "m");
                     Print (secret_not_found "m" "g")] (Ok tt) in
      update_secret MemStore.store "dev" "g" "m" [("K", "W")] MemStore.dev_one = stop
      /\ delete_secret MemStore.store "dev" "g" "m" MemStore.dev_one = stop)
  /\ display_secrets MemStore.store "dev" None (Some "m") MemStore.dev_one =
     mkOutcome MemStore.dev_one [NamespaceExists "dev"; Print specify_group] (Ok tt)
  /\ display_secrets MemStore.store "dev" (Some "g") (Some "m") MemStore.dev_one =
     mkOutcome MemStore.dev_one
       [NamespaceExists "dev"; ListSecrets "dev" (Some "g");
        Print (header_line "m"); Print (cannot_find "m" "dev")] (Ok tt).
Proof.
  pose proof (not_found_is_reported _ MemStore.store MemStore.dev_one
                "prod" "g" "m" [("K", "W")]) as (Hprod & _).
  pose proof (not_found_is_reported _ MemStore.store MemStore.dev_one
                "dev" "g" "m" [("K", "W")]) as (_ & Hsecret & Hgroup & Hnamed & _).
  split; [|split; [|split]].
  - exact (Hprod eq_refl (Some "g") (Some "m")).
  - exact (Hsecret eq_refl eq_refl).
  - apply Hgroup; [reflexivity|discriminate].
  - apply (Hnamed eq_refl (Some "g") [("g-n", mkSecret "g-n" "g" [("K", "V")])]);
      reflexivity.
Defined.

(** ** Display *)

(** A name that is the empty string passes the guard on the group: the
    listing is fetched and looked up under "None-". *)
Example display_secrets_empty_name :
  display_secrets MemStore.store "dev" None (Some EmptyString) MemStore.dev_one =
  mkOutcome MemStore.dev_one
    [NamespaceExists "dev"; ListSecrets "dev" None;
     Print (header_line EmptyString); Print (cannot_find EmptyString "dev")] (Ok tt).
Proof. reflexivity. Qed.

(** C4, as stated, fails: asked for the secret [s] with no group in a
    namespace the cluster does not have, [display_secrets] has queried the
    cluster for the namespace and prints the namespace message, not the
    request to specify a group. *)
Lemma display_secrets_no_group_counterexample :
  let o := display_secrets MemStore.store "prod" None (Some "s") MemStore.dev_empty in
  trace o = [NamespaceExists "prod"; Print (namespace_not_found "prod")]
  /\ printed (trace o) <> [specify_group]
  /\ store_calls (trace o) <> [].
Proof. cbv zeta. repeat split; discriminate. Qed.

(** C4, amended.  Asked for a non-empty secret name and no group,
    [display_secrets] makes one call into the cluster, the test for the
    namespace, and never fetches the listing; it prints the request to
    specify a group when the namespace exists and the namespace message when
    it does not. *)
Theorem display_secrets_no_group_guard :
  forall (cluster : Type) (K : k8s.api cluster) (c : cluster)
         (namespace secret_name : string),
    secret_name <> EmptyString ->
    let o := display_secrets K namespace None (Some secret_name) c in
    store_calls (trace o) = [NamespaceExists namespace]
    /\ (k8s.namespace_exists K c namespace = Ok true ->
        o = mkOutcome c [NamespaceExists namespace; Print specify_group] (Ok tt))
    /\ (k8s.namespace_exists K c namespace = Ok false ->
        o = mkOutcome c [NamespaceExists namespace;
                         Print (namespace_not_found namespace)] (Ok tt)).
Proof.
  intros cluster K c namespace secret_name Hn o. subst o.
  split; [|split].
  - destruct (k8s.namespace_exists K c namespace) as [[|]|e] eqn:H.
    + now rewrite (display_secrets_no_group K c namespace secret_name H Hn).
    + now rewrite (display_secrets_no_namespace K c namespace None (Some secret_name) H).
    + now rewrite (display_secrets_namespace_raises K c namespace None
                     (Some secret_name) e H).
  - intros H. now apply display_secrets_no_group.
  - intros H. now apply display_secrets_no_namespace.
Qed.

Lemma display_secrets_no_group_guard_witness :
  let o := display_secrets MemStore.store "dev" None (Some "n") MemStore.dev_one in
  store_calls (trace o) = [NamespaceExists "dev"]
  /\ (k8s.namespace_exists MemStore.store MemStore.dev_one "dev" = Ok true ->
      o = mkOutcome MemStore.dev_one [NamespaceExists "dev"; Print specify_group] (Ok tt))
  /\ (k8s.namespace_exists MemStore.store MemStore.dev_one "dev" = Ok false ->
      o = mkOutcome MemStore.dev_one
            [NamespaceExists "dev"; Print (namespace_not_found "dev")] (Ok tt)).
Proof.
  apply (display_secrets_no_group_guard _ MemStore.store MemStore.dev_one "dev" "n").
  discriminate.
Defined.

(** C8.  Whenever [display_secrets] renders a secret, alone or as one of a
    listing, each item of its data is printed as one line, "-> key=value"
    with every newline character of the key and of the value taken out; no
    such line holds a newline. *)
Theorem display_secrets_strips_newlines :
  forall (cluster : Type) (K : k8s.api cluster) (c : cluster)
         (namespace : string) (g : option string) (secrets : pydict Secret),
    k8s.namespace_exists K c namespace = Ok true ->
    k8s.list_secrets K c namespace g = Ok secrets ->
    let line := fun item : string * string =>
                  "-> " ++ without_newlines (fst item) ++ "=" ++ without_newlines (snd item) in
    (forall secret_name found,
        ambiguous g (Some secret_name) = false ->
        Dict.get (format_optional g ++ "-" ++ secret_name) secrets = Some found ->
        printed (trace (display_secrets K namespace g (Some secret_name) c)) =
        header_line secret_name :: map line (data found))
    /\ printed (trace (display_secrets K namespace g None c)) =
       flat_map (fun kv => header_line (fst kv) :: map line (data (snd kv))) secrets
    /\ (forall item, render_line (fst item) (snd item) = line item
                     /\ Str.mem "010"%char (line item) = false).
Proof.
  intros cluster K c namespace g secrets Hns Hl line.
  assert (Hline : forall items,
             printed (map (fun item => Print (render_line (fst item) (snd item))) items)
             = map line items).
  { intros items. rewrite printed_lines. apply map_ext.
    intros item. apply render_line_spec. }
  split; [|split].
  - intros secret_name found Ha Hg.
    rewrite (display_secrets_named K c namespace secret_name g secrets Hns Ha Hl).
    unfold _create_complete_secret_name. rewrite Hg. cbn [trace].
    rewrite printed_app, Hline. reflexivity.
  - rewrite (display_secrets_all K c namespace g secrets Hns Hl). cbn [trace].
    rewrite printed_app. cbn [printed flat_map app].
    induction secrets as [|kv rest IH] in |- *; [reflexivity|].
    cbn [flat_map]. rewrite (printed_app (secret_lines kv)).
    fold (printed (flat_map secret_lines rest)) in IH. rewrite IH.
    unfold secret_lines at 1. cbn [printed flat_map app].
    fold (printed (map (fun item => Print (render_line (fst item) (snd item)))
                       (data (snd kv)))).
    rewrite Hline. reflexivity.
  - intros item. split.
    + apply render_line_spec.
    + unfold line. rewrite <- render_line_spec. apply render_line_single.
Qed.

Lemma display_secrets_strips_newlines_witness :
  printed (trace (display_secrets MemStore.store "dev" (Some "g") (Some "n")
                                  MemStore.dev_two_lines)) =
    [header_line "n"; "-> K=ab"]
  /\ printed (trace (display_secrets MemStore.store "dev" (Some "g") None
                                     MemStore.dev_two_lines)) =
     [header_line "g-n"; "-> K=ab"].
Proof.
  destruct (display_secrets_strips_newlines _ MemStore.store MemStore.dev_two_lines
              "dev" (Some "g")
              [("g-n", mkSecret "g-n" "g" [("K", "a" ++ Str.newline ++ "b")])]
              eq_refl eq_refl) as (Hnamed & Hall & _).
  split.
  - exact (Hnamed "n" (mkSecret "g-n" "g" [("K", "a" ++ Str.newline ++ "b")])
                  eq_refl eq_refl).
  - exact Hall.
Defined.

(** ** Create, then display *)

(** C9, as stated, fails: a value that spans two lines is created as it is
    and displayed without its newline, so no printed line holds the text
    K=V.  The lines are the report of the creation, the header and "-> K=ab". *)
Lemma create_then_display_counterexample :
  let V := "a" ++ Str.newline ++ "b" in
  let o := bind (create_secret MemStore.store "dev" "g" "n" [("K", V)])
                (fun _ => display_secrets MemStore.store "dev" (Some "g") (Some "n"))
                MemStore.dev_empty in
  value o = Ok tt
  /\ printed (trace o) = ["secret=n created in group=g"; header_line "n"; "-> K=ab"]
  /\ existsb (occurs_in ("K" ++ "=" ++ V)) (printed (trace o)) = false.
Proof. cbv zeta. repeat split. Qed.

(** C9, amended.  On a cluster where the namespace exists, [k8s.create_secret]
    returns, and the listing of the group then holds, under the name it was
    given, the data it was given: [create_secret] followed by
    [display_secrets] with the same group and name returns normally and
    prints, for each item (K, V) of the mapping, the line "-> K=V" with the
    newline characters of K and V taken out, which is "-> K=V" itself when
    they have none.  Both functions compose the name as group-name. *)
Theorem create_then_display :
  forall (cluster : Type) (K : k8s.api cluster) (c c' : cluster)
         (namespace g n : string) (kv : pydict string)
         (secrets : pydict Secret) (found : Secret),
    k8s.namespace_exists K c namespace = Ok true ->
    k8s.create_secret K c namespace (g ++ "-" ++ n) g kv = (c', Ok tt) ->
    k8s.namespace_exists K c' namespace = Ok true ->
    k8s.list_secrets K c' namespace (Some g) = Ok secrets ->
    Dict.get (g ++ "-" ++ n) secrets = Some found ->
    data found = kv ->
    let o := bind (create_secret K namespace g n kv)
                  (fun _ => display_secrets K namespace (Some g) (Some n)) c in
    value o = Ok tt
    /\ store_calls (trace o) =
         [NamespaceExists namespace; CreateSecret namespace (g ++ "-" ++ n) g kv;
          NamespaceExists namespace; ListSecrets namespace (Some g)]
    /\ printed (trace o) =
         ("secret=" ++ n ++ " created in group=" ++ g)
         :: header_line n
         :: map (fun item => "-> " ++ without_newlines (fst item) ++ "="
                                  ++ without_newlines (snd item)) kv
    /\ (forall key val,
           In (key, val) kv ->
           In ("-> " ++ without_newlines key ++ "=" ++ without_newlines val)
              (printed (trace o))
           /\ (Str.mem "010"%char key = false -> Str.mem "010"%char val = false ->
               In ("-> " ++ key ++ "=" ++ val) (printed (trace o)))).
Proof.
  intros cluster K c c' namespace g n kv secrets found Hns Hcr Hns' Hl Hg Hd o.
  assert (Hlines : forall items,
             printed (map (fun item => Print (render_line (fst item) (snd item))) items)
             = map (fun item => "-> " ++ without_newlines (fst item) ++ "="
                                     ++ without_newlines (snd item)) items).
  { intros items. rewrite printed_lines. apply map_ext.
    intros item. apply render_line_spec. }
  assert (Ho : o = mkOutcome c'
                 ([NamespaceExists namespace; CreateSecret namespace (g ++ "-" ++ n) g kv;
                   Print ("secret=" ++ n ++ " created in group=" ++ g);
                   NamespaceExists namespace; ListSecrets namespace (Some g);
                   Print (header_line n)]
                  ++ map (fun item => Print (render_line (fst item) (snd item))) kv)
                 (Ok tt)).
  { subst o. unfold bind at 1.
    rewrite (create_secret_namespace K c namespace g n kv Hns).
    unfold _create_complete_secret_name. cbv zeta. rewrite Hcr. cbn [fst snd value final trace].
    rewrite (display_secrets_named K c' namespace n (Some g) secrets Hns'
               (andb_false_r _) Hl).
    unfold _create_complete_secret_name, format_optional. rewrite Hg, Hd.
    reflexivity. }
  assert (Hp : printed (trace o) =
               ("secret=" ++ n ++ " created in group=" ++ g)
               :: header_line n
               :: map (fun item => "-> " ++ without_newlines (fst item) ++ "="
                                        ++ without_newlines (snd item)) kv).
  { rewrite Ho. cbn [trace]. rewrite printed_app, Hlines. reflexivity. }
  split; [|split; [|split]].
  - now rewrite Ho.
  - rewrite Ho. cbn [trace]. unfold store_calls. rewrite filter_app.
    fold (store_calls (map (fun item => Print (render_line (fst item) (snd item))) kv)).
    rewrite store_calls_lines. reflexivity.
  - exact Hp.
  - intros key val Hin.
    assert (Hin' : In ("-> " ++ without_newlines key ++ "=" ++ without_newlines val)
                      (printed (trace o))).
    { rewrite Hp. right. right.
      apply (in_map (fun item => "-> " ++ without_newlines (fst item) ++ "="
                                      ++ without_newlines (snd item)) kv (key, val) Hin). }
    split; [exact Hin'|].
    intros Hk Hv. now rewrite (without_newlines_id key Hk), (without_newlines_id val Hv) in Hin'.
Qed.

Lemma create_then_display_witness :
  let o := bind (create_secret MemStore.store "dev" "g" "n" [("K", "V")])
                (fun _ => display_secrets MemStore.store "dev" (Some "g") (Some "n"))
                MemStore.dev_empty in
  value o = Ok tt
  /\ printed (trace o) = ["secret=n created in group=g"; header_line "n"; "-> K=V"]
  /\ In "-> K=V" (printed (trace o)).
Proof.
  destruct (create_then_display _ MemStore.store MemStore.dev_empty MemStore.dev_one
              "dev" "g" "n" [("K", "V")]
              [("g-n", mkSecret "g-n" "g" [("K", "V")])]
              (mkSecret "g-n" "g" [("K", "V")])
              eq_refl eq_refl eq_refl eq_refl eq_refl eq_refl)
    as (Hv & _ & Hp & Hin).
  split; [exact Hv|]. split; [exact Hp|].
  exact (proj2 (Hin "K" "V" (or_introl eq_refl)) eq_refl eq_refl).
Defined.

(** * Beyond the guards: the paths that reach the cluster *)

Section Reach.

Context {cluster : Type} (K : k8s.api cluster) (c : cluster).
Variables namespace grp secret_name : string.
Variable keys_and_values : pydict string.

Let secret := _create_complete_secret_name grp secret_name.

Ltac walk := cbv beta delta [bind namespace_exists secret_exists list_secrets
                             print mutate lift] in *;
             cbn [value final trace negb app].

Lemma update_secret_present :
  k8s.namespace_exists K c namespace = Ok true ->
  k8s.secret_exists K c namespace secret = Ok true ->
  update_secret K namespace grp secret_name keys_and_values c =
  let r := k8s.update_secret K c namespace secret keys_and_values in
  mkOutcome (fst r)
    ([NamespaceExists namespace; SecretExists namespace secret;
      UpdateSecret namespace secret keys_and_values]
     ++ match snd r with
        | Ok _ => [Print ("secret=" ++ secret_name ++ " in group=" ++ grp ++ " updated")]
        | Raise _ => []
        end)
    (snd r).
Proof.
  intros H1 H2. unfold update_secret. walk. rewrite H1. walk. fold secret.
  rewrite H2. walk.
  destruct (k8s.update_secret K c namespace secret keys_and_values) as [c' [[]|e]];
    reflexivity.
Qed.

Lemma delete_secret_present :
  k8s.namespace_exists K c namespace = Ok true ->
  k8s.secret_exists K c namespace secret = Ok true ->
  delete_secret K namespace grp secret_name c =
  let r := k8s.delete_secret K c namespace secret in
  mkOutcome (fst r)
    ([NamespaceExists namespace; SecretExists namespace secret;
      DeleteSecret namespace secret]
     ++ match snd r with
        | Ok _ => [Print ("secret=" ++ secret_name ++ " in group=" ++ grp
                          ++ " deleted from namespace=" ++ namespace)]
        | Raise _ => []
        end)
    (snd r).
Proof.
  intros H1 H2. unfold delete_secret. walk. rewrite H1. walk. fold secret.
  rewrite H2. walk.
  destruct (k8s.delete_secret K c namespace secret) as [c' [[]|e]]; reflexivity.
Qed.

Lemma create_secret_namespace_raises (e : exn) :
  k8s.namespace_exists K c namespace = Raise e ->
  create_secret K namespace grp secret_name keys_and_values c =
  mkOutcome c [NamespaceExists namespace] (Raise e).
Proof. intros H. unfold create_secret. walk. now rewrite H. Qed.

Lemma update_secret_namespace_raises (e : exn) :
  k8s.namespace_exists K c namespace = Raise e ->
  update_secret K namespace grp secret_name keys_and_values c =
  mkOutcome c [NamespaceExists namespace] (Raise e).
Proof. intros H. unfold update_secret. walk. now rewrite H. Qed.

Lemma delete_secret_namespace_raises (e : exn) :
  k8s.namespace_exists K c namespace = Raise e ->
  delete_secret K namespace grp secret_name c =
  mkOutcome c [NamespaceExists namespace] (Raise e).
Proof. intros H. unfold delete_secret. walk. now rewrite H. Qed.

Lemma update_secret_exists_raises (e : exn) :
  k8s.namespace_exists K c namespace = Ok true ->
  k8s.secret_exists K c namespace secret = Raise e ->
  update_secret K namespace grp secret_name keys_and_values c =
  mkOutcome c [NamespaceExists namespace; SecretExists namespace secret] (Raise e).
Proof.
  intros H1 H2. unfold update_secret. walk. rewrite H1. walk. fold secret.
  now rewrite H2.
Qed.

Lemma delete_secret_exists_raises (e : exn) :
  k8s.namespace_exists K c namespace = Ok true ->
  k8s.secret_exists K c namespace secret = Raise e ->
  delete_secret K namespace grp secret_name c =
  mkOutcome c [NamespaceExists namespace; SecretExists namespace secret] (Raise e).
Proof.
  intros H1 H2. unfold delete_secret. walk. rewrite H1. walk. fold secret.
  now rewrite H2.
Qed.

End Reach.

(** X1.  With the namespace and the secret in place, [update_secret] calls
    [k8s.update_secret] once, under the name it tested for, with the mapping;
    it ends as that call ends, and prints the update message exactly when the
    call returned. *)
Theorem update_secret_applies :
  forall (cluster : Type) (K : k8s.api cluster) (c : cluster)
         (namespace grp secret_name : string) (kv : pydict string),
    k8s.namespace_exists K c namespace = Ok true ->
    k8s.secret_exists K c namespace (grp ++ "-" ++ secret_name) = Ok true ->
    let o := update_secret K namespace grp secret_name kv c in
    store_calls (trace o) =
      [NamespaceExists namespace; SecretExists namespace (grp ++ "-" ++ secret_name);
       UpdateSecret namespace (grp ++ "-" ++ secret_name) kv]
    /\ (final o, value o) = k8s.update_secret K c namespace (grp ++ "-" ++ secret_name) kv
    /\ printed (trace o) =
       match value o with
       | Ok _ => ["secret=" ++ secret_name ++ " in group=" ++ grp ++ " updated"]
       | Raise _ => []
       end.
Proof.
  intros cluster K c namespace grp secret_name kv H1 H2 o. subst o.
  rewrite (update_secret_present K c namespace grp secret_name kv H1 H2).
  unfold _create_complete_secret_name. cbv zeta. cbn [trace final value].
  destruct (k8s.update_secret K c namespace (grp ++ "-" ++ secret_name) kv)
    as [c' [[]|e]]; repeat split.
Qed.

Lemma update_secret_applies_witness :
  let o := update_secret MemStore.store "dev" "g" "n" [("K", "W")] MemStore.dev_one in
  store_calls (trace o) =
    [NamespaceExists "dev"; SecretExists "dev" ("g" ++ "-" ++ "n");
     UpdateSecret "dev" ("g" ++ "-" ++ "n") [("K", "W")]]
  /\ (final o, value o) =
     k8s.update_secret MemStore.store MemStore.dev_one "dev" ("g" ++ "-" ++ "n") [("K", "W")]
  /\ printed (trace o) =
     match value o with
     | Ok _ => ["secret=" ++ "n" ++ " in group=" ++ "g" ++ " updated"]
     | Raise _ => []
     end.
Proof.
  apply (update_secret_applies _ MemStore.store MemStore.dev_one "dev" "g" "n" [("K", "W")]);
    reflexivity.
Defined.

(** X2.  With the namespace and the secret in place, [delete_secret] calls
    [k8s.delete_secret] once, under the name it tested for; it ends as that
    call ends, and prints the deletion message exactly when the call
    returned. *)
Theorem delete_secret_applies :
  forall (cluster : Type) (K : k8s.api cluster) (c : cluster)
         (namespace grp secret_name : string),
    k8s.namespace_exists K c namespace = Ok true ->
    k8s.secret_exists K c namespace (grp ++ "-" ++ secret_name) = Ok true ->
    let o := delete_secret K namespace grp secret_name c in
    store_calls (trace o) =
      [NamespaceExists namespace; SecretExists namespace (grp ++ "-" ++ secret_name);
       DeleteSecret namespace (grp ++ "-" ++ secret_name)]
    /\ (final o, value o) = k8s.delete_secret K c namespace (grp ++ "-" ++ secret_name)
    /\ printed (trace o) =
       match value o with
       | Ok _ => ["secret=" ++ secret_name ++ " in group=" ++ grp
                  ++ " deleted from namespace=" ++ namespace]
       | Raise _ => []
       end.
Proof.
  intros cluster K c namespace grp secret_name H1 H2 o. subst o.
  rewrite (delete_secret_present K c namespace grp secret_name H1 H2).
  unfold _create_complete_secret_name. cbv zeta. cbn [trace final value].
  destruct (k8s.delete_secret K c namespace (grp ++ "-" ++ secret_name))
    as [c' [[]|e]]; repeat split.
Qed.

Lemma delete_secret_applies_witness :
  let o := delete_secret MemStore.store "dev" "g" "n" MemStore.dev_one in
  store_calls (trace o) =
    [NamespaceExists "dev"; SecretExists "dev" ("g" ++ "-" ++ "n");
     DeleteSecret "dev" ("g" ++ "-" ++ "n")]
  /\ (final o, value o) =
     k8s.delete_secret MemStore.store MemStore.dev_one "dev" ("g" ++ "-" ++ "n")
  /\ printed (trace o) =
     match value o with
     | Ok _ => ["secret=" ++ "n" ++ " in group=" ++ "g" ++ " deleted from namespace=" ++ "dev"]
     | Raise _ => []
     end.
Proof.
  apply (delete_secret_applies _ MemStore.store MemStore.dev_one "dev" "g" "n");
    reflexivity.
Defined.

(** X3.  When the mutating call raises, [create_secret], [update_secret] and
    [delete_secret] print no success message: the exception leaves them as it
    came, after the guards' queries and the one mutating call. *)
Theorem no_report_when_refused :
  forall (cluster : Type) (K : k8s.api cluster) (c c' : cluster)
         (namespace grp secret_name : string) (kv : pydict string) (e : exn),
    k8s.namespace_exists K c namespace = Ok true ->
    (k8s.create_secret K c namespace (grp ++ "-" ++ secret_name) grp kv = (c', Raise e) ->
     create_secret K namespace grp secret_name kv c =
     mkOutcome c' [NamespaceExists namespace;
                   CreateSecret namespace (grp ++ "-" ++ secret_name) grp kv] (Raise e))
    /\ (k8s.secret_exists K c namespace (grp ++ "-" ++ secret_name) = Ok true ->
        k8s.update_secret K c namespace (grp ++ "-" ++ secret_name) kv = (c', Raise e) ->
        update_secret K namespace grp secret_name kv c =
        mkOutcome c' [NamespaceExists namespace;
                      SecretExists namespace (grp ++ "-" ++ secret_name);
                      UpdateSecret namespace (grp ++ "-" ++ secret_name) kv] (Raise e))
    /\ (k8s.secret_exists K c namespace (grp ++ "-" ++ secret_name) = Ok true ->
        k8s.delete_secret K c namespace (grp ++ "-" ++ secret_name) = (c', Raise e) ->
        delete_secret K namespace grp secret_name c =
        mkOutcome c' [NamespaceExists namespace;
                      SecretExists namespace (grp ++ "-" ++ secret_name);
                      DeleteSecret namespace (grp ++ "-" ++ secret_name)] (Raise e)).
Proof.
  intros cluster K c c' namespace grp secret_name kv e Hns.
  split; [|split].
  - intros Hr. rewrite (create_secret_namespace K c namespace grp secret_name kv Hns).
    unfold _create_complete_secret_name. cbv zeta. now rewrite Hr.
  - intros Hs Hr. rewrite (update_secret_present K c namespace grp secret_name kv Hns Hs).
    unfold _create_complete_secret_name. cbv zeta. now rewrite Hr.
  - intros Hs Hr. rewrite (delete_secret_present K c namespace grp secret_name Hns Hs).
    unfold _create_complete_secret_name. cbv zeta. now rewrite Hr.
Qed.

Lemma no_report_when_refused_witness :
  let e := ApiException "forbidden" in
  create_secret Canned.store "dev" "g" "n" [("K", "V")] Canned.refused =
    mkOutcome Canned.refused
      [NamespaceExists "dev"; CreateSecret "dev" ("g" ++ "-" ++ "n") "g" [("K", "V")]]
      (Raise e)
  /\ update_secret Canned.store "dev" "g" "n" [("K", "V")] Canned.refused =
     mkOutcome Canned.refused
       [NamespaceExists "dev"; SecretExists "dev" ("g" ++ "-" ++ "n");
        UpdateSecret "dev" ("g" ++ "-" ++ "n") [("K", "V")]] (Raise e)
  /\ delete_secret Canned.store "dev" "g" "n" Canned.refused =
     mkOutcome Canned.refused
       [NamespaceExists "dev"; SecretExists "dev" ("g" ++ "-" ++ "n");
        DeleteSecret "dev" ("g" ++ "-" ++ "n")] (Raise e).
Proof.
  destruct (no_report_when_refused _ Canned.store Canned.refused Canned.refused
              "dev" "g" "n" [("K", "V")] (ApiException "forbidden") eq_refl)
    as (Hc & Hu & Hd).
  split; [exact (Hc eq_refl)|]. split; [exact (Hu eq_refl eq_refl)|].
  exact (Hd eq_refl eq_refl).
Defined.

(** X4.  An exception raised by a guard's query leaves the function as it
    came, with nothing printed and no later call made: from the namespace
    test in all four functions, from the secret test in update and delete,
    and from the listing in [display_secrets], whose [except KeyError] does
    not reach the call to [k8s.list_secrets]. *)
Theorem guard_exceptions_propagate :
  forall (cluster : Type) (K : k8s.api cluster) (c : cluster)
         (namespace grp secret_name : string) (kv : pydict string) (e : exn),
    (k8s.namespace_exists K c namespace = Raise e ->
     forall g n,
       let stop := mkOutcome c [NamespaceExists namespace] (Raise e) in
       create_secret K namespace grp secret_name kv c = stop
       /\ update_secret K namespace grp secret_name kv c = stop
       /\ delete_secret K namespace grp secret_name c = stop
       /\ display_secrets K namespace g n c = stop)
    /\ (k8s.namespace_exists K c namespace = Ok true ->
        k8s.secret_exists K c namespace (grp ++ "-" ++ secret_name) = Raise e ->
        let stop := mkOutcome c [NamespaceExists namespace;
                                 SecretExists namespace (grp ++ "-" ++ secret_name)]
                              (Raise e) in
        update_secret K namespace grp secret_name kv c = stop
        /\ delete_secret K namespace grp secret_name c = stop)
    /\ (k8s.namespace_exists K c namespace = Ok true ->
        forall g n,
          ambiguous g n = false ->
          k8s.list_secrets K c namespace g = Raise e ->
          display_secrets K namespace g n c =
          mkOutcome c [NamespaceExists namespace; ListSecrets namespace g] (Raise e)).
Proof.
  intros cluster K c namespace grp secret_name kv e. split; [|split].
  - intros H g n stop. repeat split.
    + now apply create_secret_namespace_raises.
    + now apply update_secret_namespace_raises.
    + now apply delete_secret_namespace_raises.
    + now apply display_secrets_namespace_raises.
  - intros H1 H2 stop. split.
    + now apply update_secret_exists_raises.
    + now apply delete_secret_exists_raises.
  - intros H g n Ha Hl. now apply display_secrets_list_raises.
Qed.

Lemma guard_exceptions_propagate_witness :
  (let stop := mkOutcome Canned.unreachable [NamespaceExists "dev"]
                         (Raise (ApiException "connection refused")) in
   create_secret Canned.store "dev" "g" "n" [("K", "V")] Canned.unreachable = stop
   /\ update_secret Canned.store "dev" "g" "n" [("K", "V")] Canned.unreachable = stop
   /\ delete_secret Canned.store "dev" "g" "n" Canned.unreachable = stop
   /\ display_secrets Canned.store "dev" (Some "g") (Some "n") Canned.unreachable = stop)
  /\ (let stop := mkOutcome Canned.half_way
                    [NamespaceExists "dev"; SecretExists "dev" ("g" ++ "-" ++ "n")]
                    (Raise (ApiException "timeout")) in
      update_secret Canned.store "dev" "g" "n" [("K", "V")] Canned.half_way = stop
      /\ delete_secret Canned.store "dev" "g" "n" Canned.half_way = stop)
  /\ display_secrets Canned.store "dev" (Some "g") (Some "n") Canned.half_way =
     mkOutcome Canned.half_way [NamespaceExists "dev"; ListSecrets "dev" (Some "g")]
               (Raise (KeyError "items")).
Proof.
  destruct (guard_exceptions_propagate _ Canned.store Canned.unreachable
              "dev" "g" "n" [("K", "V")] (ApiException "connection refused"))
    as (Hdown & _ & _).
  destruct (guard_exceptions_propagate _ Canned.store Canned.half_way
              "dev" "g" "n" [("K", "V")] (ApiException "timeout"))
    as (_ & Hsecret & _).
  destruct (guard_exceptions_propagate _ Canned.store Canned.half_way
              "dev" "g" "n" [("K", "V")] (KeyError "items"))
    as (_ & _ & Hlist).
  split; [exact (Hdown eq_refl (Some "g") (Some "n"))|].
  split; [exact (Hsecret eq_refl eq_refl)|].
  exact (Hlist eq_refl (Some "g") (Some "n") eq_refl eq_refl).
Defined.

(** X5.  Whatever the cluster answers, the calls each mutating function makes
    are a first part of: namespace test, (secret test,) the one mutating
    call.  The mutating call is made at most once and only after every test
    before it answered true; until then the cluster is as it was.
    [create_secret] never tests for the secret. *)
Theorem calls_follow_the_guards :
  forall (cluster : Type) (K : k8s.api cluster) (c : cluster)
         (namespace grp secret_name : string) (kv : pydict string),
    let id := grp ++ "-" ++ secret_name in
    (let o := create_secret K namespace grp secret_name kv c in
     (store_calls (trace o) = [NamespaceExists namespace] /\ final o = c)
     \/ (k8s.namespace_exists K c namespace = Ok true
         /\ store_calls (trace o) =
              [NamespaceExists namespace; CreateSecret namespace id grp kv]))
    /\ (let o := update_secret K namespace grp secret_name kv c in
        (store_calls (trace o) = [NamespaceExists namespace] /\ final o = c)
        \/ (k8s.namespace_exists K c namespace = Ok true
            /\ store_calls (trace o) = [NamespaceExists namespace; SecretExists namespace id]
            /\ final o = c)
        \/ (k8s.namespace_exists K c namespace = Ok true
            /\ k8s.secret_exists K c namespace id = Ok true
            /\ store_calls (trace o) =
                 [NamespaceExists namespace; SecretExists namespace id;
                  UpdateSecret namespace id kv]))
    /\ (let o := delete_secret K namespace grp secret_name c in
        (store_calls (trace o) = [NamespaceExists namespace] /\ final o = c)
        \/ (k8s.namespace_exists K c namespace = Ok true
            /\ store_calls (trace o) = [NamespaceExists namespace; SecretExists namespace id]
            /\ final o = c)
        \/ (k8s.namespace_exists K c namespace = Ok true
            /\ k8s.secret_exists K c namespace id = Ok true
            /\ store_calls (trace o) =
                 [NamespaceExists namespace; SecretExists namespace id;
                  DeleteSecret namespace id])).
Proof.
  intros cluster K c namespace grp secret_name kv id.
  destruct (k8s.namespace_exists K c namespace) as [[|]|e] eqn:Hns.
  - destruct (k8s.secret_exists K c namespace id) as [[|]|e] eqn:Hs.
    + split; [|split]; cbv zeta.
      * right. split; [reflexivity|].
        rewrite (create_secret_namespace K c namespace grp secret_name kv Hns).
        fold id. unfold _create_complete_secret_name. fold id. cbv zeta. cbn [trace].
        now destruct (snd (k8s.create_secret K c namespace id grp kv)).
      * right. right. split; [reflexivity|]. split; [reflexivity|].
        rewrite (update_secret_present K c namespace grp secret_name kv Hns Hs).
        unfold _create_complete_secret_name. fold id. cbv zeta. cbn [trace].
        now destruct (snd (k8s.update_secret K c namespace id kv)).
      * right. right. split; [reflexivity|]. split; [reflexivity|].
        rewrite (delete_secret_present K c namespace grp secret_name Hns Hs).
        unfold _create_complete_secret_name. fold id. cbv zeta. cbn [trace].
        now destruct (snd (k8s.delete_secret K c namespace id)).
    + split; [|split]; cbv zeta.
      * right. split; [reflexivity|].
        rewrite (create_secret_namespace K c namespace grp secret_name kv Hns).
        unfold _create_complete_secret_name. fold id. cbv zeta. cbn [trace].
        now destruct (snd (k8s.create_secret K c namespace id grp kv)).
      * right. left. split; [reflexivity|].
        now rewrite (update_secret_no_secret K c namespace grp secret_name kv Hns Hs).
      * right. left. split; [reflexivity|].
        now rewrite (delete_secret_no_secret K c namespace grp secret_name Hns Hs).
    + split; [|split]; cbv zeta.
      * right. split; [reflexivity|].
        rewrite (create_secret_namespace K c namespace grp secret_name kv Hns).
        unfold _create_complete_secret_name. fold id. cbv zeta. cbn [trace].
        now destruct (snd (k8s.create_secret K c namespace id grp kv)).
      * right. left. split; [reflexivity|].
        now rewrite (update_secret_exists_raises K c namespace grp secret_name kv e Hns Hs).
      * right. left. split; [reflexivity|].
        now rewrite (delete_secret_exists_raises K c namespace grp secret_name e Hns Hs).
  - split; [|split]; cbv zeta; left.
    + now rewrite (create_secret_no_namespace K c namespace grp secret_name kv Hns).
    + now rewrite (update_secret_no_namespace K c namespace grp secret_name kv Hns).
    + now rewrite (delete_secret_no_namespace K c namespace grp secret_name Hns).
  - split; [|split]; cbv zeta; left.
    + now rewrite (create_secret_namespace_raises K c namespace grp secret_name kv e Hns).
    + now rewrite (update_secret_namespace_raises K c namespace grp secret_name kv e Hns).
    + now rewrite (delete_secret_namespace_raises K c namespace grp secret_name e Hns).
Qed.

(** * The composed name *)

Lemma append_assoc3 (a b c : string) : (a ++ b) ++ c = a ++ (b ++ c).
Proof. induction a; simpl; congruence. Qed.

(** A string splits at the first occurrence of a character in one way only. *)
Lemma split_first_unique (ch : ascii) (k1 k2 v1 v2 : string) :
  Str.mem ch k1 = false -> Str.mem ch k2 = false ->
  k1 ++ String ch v1 = k2 ++ String ch v2 ->
  k1 = k2 /\ v1 = v2.
Proof.
  revert k2. induction k1 as [|a k1 IH]; intros [|b k2] H1 H2 H; simpl in *.
  - injection H as ->. now split.
  - injection H as -> _. rewrite Ascii.eqb_refl in H2. discriminate.
  - injection H as -> _. rewrite Ascii.eqb_refl in H1. discriminate.
  - injection H as -> H.
    apply orb_false_iff in H1 as [_ H1]. apply orb_false_iff in H2 as [_ H2].
    destruct (IH k2 H1 H2 H) as [-> ->]. now split.
Qed.

(** X6.  Among groups that hold no "-", the composed name tells the group
    and the name apart: equal composed names come from equal groups and
    equal names. *)
Theorem complete_secret_name_injective (g1 n1 g2 n2 : string) :
  Str.mem "-"%char g1 = false ->
  Str.mem "-"%char g2 = false ->
  _create_complete_secret_name g1 n1 = _create_complete_secret_name g2 n2 ->
  g1 = g2 /\ n1 = n2.
Proof. intros H1 H2 H. exact (split_first_unique "-"%char g1 g2 n1 n2 H1 H2 H). Qed.

Lemma complete_secret_name_injective_witness :
  "prod" = "prod" /\ "db-password" = "db-password".
Proof.
  apply (complete_secret_name_injective "prod" "db-password" "prod" "db-password");
    reflexivity.
Defined.

(** X7.  Nothing keeps a "-" out of a group: the group a-b with the name c,
    and the group a with the name b-c, are two different requests with one
    composed name. *)
Theorem complete_secret_name_collision (a b c : string) :
  _create_complete_secret_name (a ++ "-" ++ b) c =
  _create_complete_secret_name a (b ++ "-" ++ c)
  /\ a ++ "-" ++ b <> a.
Proof.
  split.
  - unfold _create_complete_secret_name.
    change ("-" ++ b) with (String "-"%char b).
    change ("-" ++ c) with (String "-"%char c).
    change ("-" ++ b ++ String "-"%char c) with (String "-"%char (b ++ String "-"%char c)).
    rewrite append_assoc3. reflexivity.
  - intros H. apply (f_equal length) in H. rewrite length_app in H.
    simpl in H. lia.
Qed.

(** X8.  [update_secret] and [delete_secret] reach the secret through the
    composed name alone: two requests with one composed name make the same
    calls into the cluster, leave it in the same state and end alike. *)
Theorem same_name_same_effect :
  forall (cluster : Type) (K : k8s.api cluster) (c : cluster)
         (namespace g1 n1 g2 n2 : string) (kv : pydict string),
    _create_complete_secret_name g1 n1 = _create_complete_secret_name g2 n2 ->
    (let o1 := update_secret K namespace g1 n1 kv c in
     let o2 := update_secret K namespace g2 n2 kv c in
     store_calls (trace o1) = store_calls (trace o2)
     /\ final o1 = final o2 /\ value o1 = value o2)
    /\ (let o1 := delete_secret K namespace g1 n1 c in
        let o2 := delete_secret K namespace g2 n2 c in
        store_calls (trace o1) = store_calls (trace o2)
        /\ final o1 = final o2 /\ value o1 = value o2).
Proof.
  intros cluster K c namespace g1 n1 g2 n2 kv Hid. cbv zeta.
  destruct (k8s.namespace_exists K c namespace) as [[|]|e] eqn:Hns.
  - destruct (k8s.secret_exists K c namespace (_create_complete_secret_name g1 n1))
      as [[|]|e] eqn:Hs1;
      pose proof Hs1 as Hs2; rewrite Hid in Hs2.
    + rewrite (update_secret_present K c namespace g1 n1 kv Hns Hs1),
              (update_secret_present K c namespace g2 n2 kv Hns Hs2),
              (delete_secret_present K c namespace g1 n1 Hns Hs1),
              (delete_secret_present K c namespace g2 n2 Hns Hs2).
      rewrite Hid. cbv zeta. cbn [trace final value].
      destruct (snd (k8s.update_secret K c namespace _ kv));
        destruct (snd (k8s.delete_secret K c namespace _)); repeat split.
    + rewrite (update_secret_no_secret K c namespace g1 n1 kv Hns Hs1),
              (update_secret_no_secret K c namespace g2 n2 kv Hns Hs2),
              (delete_secret_no_secret K c namespace g1 n1 Hns Hs1),
              (delete_secret_no_secret K c namespace g2 n2 Hns Hs2).
      rewrite Hid. repeat split.
    + rewrite (update_secret_exists_raises K c namespace g1 n1 kv e Hns Hs1),
              (update_secret_exists_raises K c namespace g2 n2 kv e Hns Hs2),
              (delete_secret_exists_raises K c namespace g1 n1 e Hns Hs1),
              (delete_secret_exists_raises K c namespace g2 n2 e Hns Hs2).
      rewrite Hid. repeat split.
  - rewrite (update_secret_no_namespace K c namespace g1 n1 kv Hns),
            (update_secret_no_namespace K c namespace g2 n2 kv Hns),
            (delete_secret_no_namespace K c namespace g1 n1 Hns),
            (delete_secret_no_namespace K c namespace g2 n2 Hns).
    repeat split.
  - rewrite (update_secret_namespace_raises K c namespace g1 n1 kv e Hns),
            (update_secret_namespace_raises K c namespace g2 n2 kv e Hns),
            (delete_secret_namespace_raises K c namespace g1 n1 e Hns),
            (delete_secret_namespace_raises K c namespace g2 n2 e Hns).
    repeat split.
Qed.

Lemma same_name_same_effect_witness :
  final (delete_secret MemStore.store "dev" "a-b" "c" dev_dashed) =
  final (delete_secret MemStore.store "dev" "a" "b-c" dev_dashed)
  /\ final (delete_secret MemStore.store "dev" "a" "b-c" dev_dashed) = [("dev", [])].
Proof.
  destruct (same_name_same_effect _ MemStore.store dev_dashed
              "dev" "a-b" "c" "a" "b-c" [("K", "W")] eq_refl) as (_ & _ & Hf & _).
  split; [exact Hf|reflexivity].
Defined.

(** * More on the parser of a sequence *)

Lemma keys_set_order {V} (k : string) (v : V) (d : pydict V) :
  Dict.keys (Dict.set k v d) =
  if existsb (String.eqb k) (Dict.keys d) then Dict.keys d
  else (Dict.keys d ++ [k])%list.
Proof.
  unfold Dict.keys. induction d as [|[k' v'] d IH]; [reflexivity|].
  cbn [Dict.set map fst existsb].
  rewrite (String.eqb_sym k k').
  destruct (String.eqb k' k) eqn:Hk; cbn [map fst orb].
  - apply String.eqb_eq in Hk. now subst k'.
  - rewrite IH. now destruct (existsb (String.eqb k) (map fst d)).
Qed.

Lemma keys_fold (pairs : list (string * string)) :
  forall acc,
    Dict.keys (fold_left insert_pair pairs acc) =
    (Dict.keys acc ++ first_occurrences (Dict.keys acc) (map fst pairs))%list.
Proof.
  induction pairs as [|[k v] rest IH]; intros acc; cbn [fold_left map fst first_occurrences].
  - now rewrite app_nil_r.
  - rewrite IH. unfold insert_pair at 1 2. cbn [fst snd]. rewrite keys_set_order.
    destruct (existsb (String.eqb k) (Dict.keys acc)); [reflexivity|].
    now rewrite <- app_assoc.
Qed.

Lemma first_occurrences_length (ks : list string) :
  forall seen, (List.length (first_occurrences seen ks) <= List.length ks)%nat.
Proof.
  induction ks as [|k rest IH]; intros seen; cbn [first_occurrences List.length].
  - lia.
  - destruct (existsb (String.eqb k) seen).
    + specialize (IH seen). lia.
    + specialize (IH (seen ++ [k])%list). cbn [List.length]. lia.
Qed.

(** X9.  The dictionary [parse_cli_secrets_strings] returns lists its keys
    in the order in which each was first given, though each holds the value
    given last; it has no more items than there were strings. *)
Theorem parse_cli_secrets_strings_key_order (raws : list string)
    (pairs : list (string * string)) :
  map _parse_secret_key_value_pair raws = map Ok pairs ->
  exists d,
    parse_cli_secrets_strings raws = Ok d
    /\ Dict.keys d = first_occurrences [] (map fst pairs)
    /\ (List.length d <= List.length raws)%nat.
Proof.
  intros H. exists (fold_left insert_pair pairs []).
  split; [now apply dict_of_parsed_ok|].
  assert (Hk : Dict.keys (fold_left insert_pair pairs []) =
               first_occurrences [] (map fst pairs)) by apply keys_fold.
  split; [exact Hk|].
  apply (f_equal (@List.length string)) in Hk. unfold Dict.keys in Hk.
  rewrite length_map in Hk. rewrite Hk.
  apply (f_equal (@List.length _)) in H. rewrite !length_map in H. rewrite H.
  rewrite <- (length_map fst pairs). apply first_occurrences_length.
Qed.

Lemma parse_cli_secrets_strings_key_order_witness :
  exists d,
    parse_cli_secrets_strings ["b=1"; "a=2"; "b=3"] = Ok d
    /\ Dict.keys d = first_occurrences [] (map fst [("b", "1"); ("a", "2"); ("b", "3")])
    /\ (List.length d <= List.length ["b=1"; "a=2"; "b=3"])%nat.
Proof.
  apply (parse_cli_secrets_strings_key_order
           ["b=1"; "a=2"; "b=3"] [("b", "1"); ("a", "2"); ("b", "3")]).
  reflexivity.
Defined.

Lemma all_or_one (raws : list string) :
  Forall well_formed raws \/ Exists malformed raws.
Proof.
  induction raws as [|raw raws [IH|IH]].
  - left. constructor.
  - destruct (parse_total raw) as [Hok|Hr].
    + left. now constructor.
    + right. apply Exists_cons_hd. now apply malformed_raises.
  - right. now apply Exists_cons_tl.
Qed.

Lemma well_formed_pairs (raws : list string) :
  Forall well_formed raws ->
  exists pairs, map _parse_secret_key_value_pair raws = map Ok pairs.
Proof.
  induction 1 as [|raw raws [kv Hok] _ [pairs IH]].
  - now exists [].
  - exists (kv :: pairs). simpl. now rewrite Hok, IH.
Qed.

(** X10.  [parse_cli_secrets_strings] returns a dictionary exactly when every
    string parses, and otherwise raises the [ValueError] of the pair parser:
    it has no other way to end.  The empty sequence gives the empty
    dictionary. *)
Theorem parse_cli_secrets_strings_ends (raws : list string) :
  ((exists d, parse_cli_secrets_strings raws = Ok d) <-> Forall well_formed raws)
  /\ (parse_cli_secrets_strings raws = Raise (ValueError error_msg)
      <-> Exists malformed raws)
  /\ ((exists d, parse_cli_secrets_strings raws = Ok d)
      \/ parse_cli_secrets_strings raws = Raise (ValueError error_msg))
  /\ (raws = [] -> parse_cli_secrets_strings raws = Ok []).
Proof.
  assert (Hbad : Exists malformed raws ->
                 parse_cli_secrets_strings raws = Raise (ValueError error_msg)).
  { intros H. destruct (first_malformed raws H) as (pre & bad & post & -> & Hpre & Hb).
    apply malformed_raises in Hb. unfold parse_cli_secrets_strings.
    now apply dict_of_parsed_stops. }
  assert (Hgood : Forall well_formed raws -> exists d, parse_cli_secrets_strings raws = Ok d).
  { intros H. destruct (well_formed_pairs raws H) as [pairs Hp].
    exists (fold_left insert_pair pairs []). unfold parse_cli_secrets_strings.
    exact (dict_of_parsed_ok raws pairs [] Hp). }
  split; [|split; [|split]].
  - split; [|exact Hgood].
    intros [d Hd]. destruct (all_or_one raws) as [H|H]; [exact H|].
    rewrite (Hbad H) in Hd. discriminate.
  - split; [|exact Hbad].
    intros Hr. destruct (all_or_one raws) as [H|H]; [|exact H].
    destruct (Hgood H) as [d Hd]. congruence.
  - destruct (all_or_one raws) as [H|H]; [left; now apply Hgood|right; now apply Hbad].
  - intros ->. reflexivity.
Qed.

(** * Parsing, then rendering *)

(** X11.  A pair that was parsed from a string is rendered by
    [display_secrets] as that string behind "-> ", less its newline
    characters: unchanged when it has none. *)
Theorem render_parsed_pair (raw key value : string) :
  _parse_secret_key_value_pair raw = Ok (key, value) ->
  render_line key value = "-> " ++ without_newlines raw
  /\ (Str.mem "010"%char raw = false -> render_line key value = "-> " ++ raw).
Proof.
  intros H. apply parse_ok_inv in H as (-> & _).
  assert (Hr : render_line key value = "-> " ++ without_newlines (key ++ "=" ++ value)).
  { rewrite render_line_spec, without_newlines_app. reflexivity. }
  split; [exact Hr|].
  intros Hm. now rewrite Hr, (without_newlines_id _ Hm).
Qed.

Lemma render_parsed_pair_witness :
  render_line "key" "val=ue" = "-> " ++ without_newlines "key=val=ue"
  /\ (Str.mem "010"%char "key=val=ue" = false ->
      render_line "key" "val=ue" = "-> " ++ "key=val=ue").
Proof. apply (render_parsed_pair "key=val=ue" "key" "val=ue"). reflexivity. Defined.

(** * More on display *)

(** X12.  The guard on the group tests the truth of the name, so the empty
    name with no group is not turned away: the whole namespace is listed and
    the secret is looked up under "None-", the name composed from the missing
    group; its data is printed if the listing holds it, the cannot-find
    message if not. *)
Theorem display_secrets_empty_name_unguarded :
  forall (cluster : Type) (K : k8s.api cluster) (c : cluster)
         (namespace : string) (secrets : pydict Secret),
    k8s.namespace_exists K c namespace = Ok true ->
    k8s.list_secrets K c namespace None = Ok secrets ->
    display_secrets K namespace None (Some EmptyString) c =
    mkOutcome c
      ([NamespaceExists namespace; ListSecrets namespace None;
        Print (header_line EmptyString)]
       ++ match Dict.get "None-" secrets with
          | Some found =>
              map (fun item => Print (render_line (fst item) (snd item))) (data found)
          | None => [Print (cannot_find EmptyString namespace)]
          end)
      (Ok tt).
Proof.
  intros cluster K c namespace secrets Hns Hl.
  exact (display_secrets_named K c namespace EmptyString None secrets Hns eq_refl Hl).
Qed.

Lemma display_secrets_empty_name_unguarded_witness :
  display_secrets MemStore.store "dev" None (Some EmptyString) dev_none_dash =
  mkOutcome dev_none_dash
    [NamespaceExists "dev"; ListSecrets "dev" None;
     Print (header_line EmptyString); Print "-> K=V"]
    (Ok tt).
Proof.
  exact (display_secrets_empty_name_unguarded _ MemStore.store dev_none_dash "dev"
           [("None-", mkSecret "None-" "None" [("K", "V")])] eq_refl eq_refl).
Defined.

Lemma printed_rendered (items : pydict string) :
  printed (map (fun item => Print (render_line (fst item) (snd item))) items) =
  map (fun item => "-> " ++ without_newlines (fst item) ++ "="
                        ++ without_newlines (snd item)) items.
Proof.
  rewrite printed_lines. apply map_ext. intros item. apply render_line_spec.
Qed.

(** X13.  On a cluster where the namespace and the secret exist,
    [k8s.update_secret] returns, and the listing of the group then holds the
    new data under the name it was given: [update_secret] followed by
    [display_secrets] with the same group and name returns normally and
    prints the update message, the header and one line for each item of the
    new mapping. *)
Theorem update_then_display :
  forall (cluster : Type) (K : k8s.api cluster) (c c' : cluster)
         (namespace g n : string) (kv : pydict string)
         (secrets : pydict Secret) (found : Secret),
    k8s.namespace_exists K c namespace = Ok true ->
    k8s.secret_exists K c namespace (g ++ "-" ++ n) = Ok true ->
    k8s.update_secret K c namespace (g ++ "-" ++ n) kv = (c', Ok tt) ->
    k8s.namespace_exists K c' namespace = Ok true ->
    k8s.list_secrets K c' namespace (Some g) = Ok secrets ->
    Dict.get (g ++ "-" ++ n) secrets = Some found ->
    data found = kv ->
    let o := bind (update_secret K namespace g n kv)
                  (fun _ => display_secrets K namespace (Some g) (Some n)) c in
    value o = Ok tt
    /\ final o = c'
    /\ mutations (trace o) = [UpdateSecret namespace (g ++ "-" ++ n) kv]
    /\ printed (trace o) =
         ("secret=" ++ n ++ " in group=" ++ g ++ " updated")
         :: header_line n
         :: map (fun item => "-> " ++ without_newlines (fst item) ++ "="
                                  ++ without_newlines (snd item)) kv.
Proof.
  intros cluster K c c' namespace g n kv secrets found Hns Hs Hup Hns' Hl Hg Hd o.
  assert (Ho : o = mkOutcome c'
                 ([NamespaceExists namespace; SecretExists namespace (g ++ "-" ++ n);
                   UpdateSecret namespace (g ++ "-" ++ n) kv;
                   Print ("secret=" ++ n ++ " in group=" ++ g ++ " updated");
                   NamespaceExists namespace; ListSecrets namespace (Some g);
                   Print (header_line n)]
                  ++ map (fun item => Print (render_line (fst item) (snd item))) kv)
                 (Ok tt)).
  { subst o. unfold bind at 1.
    rewrite (update_secret_present K c namespace g n kv Hns Hs).
    unfold _create_complete_secret_name. cbv zeta. rewrite Hup.
    cbn [fst snd value final trace].
    rewrite (display_secrets_named K c' namespace n (Some g) secrets Hns'
               (andb_false_r _) Hl).
    unfold _create_complete_secret_name, format_optional. rewrite Hg, Hd.
    reflexivity. }
  rewrite Ho. cbn [value final trace]. repeat split.
  - unfold mutations. rewrite filter_app. cbn [filter is_mutation app].
    fold (mutations (map (fun item => Print (render_line (fst item) (snd item))) kv)).
    now rewrite mutations_lines.
  - rewrite printed_app, printed_rendered. reflexivity.
Qed.

Lemma update_then_display_witness :
  let o := bind (update_secret MemStore.store "dev" "g" "n" [("K", "W"); ("L", "X")])
                (fun _ => display_secrets MemStore.store "dev" (Some "g") (Some "n"))
                MemStore.dev_one in
  value o = Ok tt
  /\ printed (trace o) =
     ["secret=n in group=g updated"; header_line "n"; "-> K=W"; "-> L=X"].
Proof.
  destruct (update_then_display _ MemStore.store MemStore.dev_one
              [("dev", [("g-n", mkSecret "g-n" "g" [("K", "W"); ("L", "X")])])]
              "dev" "g" "n" [("K", "W"); ("L", "X")]
              [("g-n", mkSecret "g-n" "g" [("K", "W"); ("L", "X")])]
              (mkSecret "g-n" "g" [("K", "W"); ("L", "X")])
              eq_refl eq_refl eq_refl eq_refl eq_refl eq_refl eq_refl)
    as (Hv & _ & _ & Hp).
  split; [exact Hv|exact Hp].
Defined.

(** X14.  On a cluster where the namespace and the secret exist,
    [k8s.delete_secret] returns, and the listing of the group then no longer
    holds the name it was given: [delete_secret] followed by
    [display_secrets] with the same group and name returns normally and
    prints the deletion message, the header and the cannot-find message. *)
Theorem delete_then_display :
  forall (cluster : Type) (K : k8s.api cluster) (c c' : cluster)
         (namespace g n : string) (secrets : pydict Secret),
    k8s.namespace_exists K c namespace = Ok true ->
    k8s.secret_exists K c namespace (g ++ "-" ++ n) = Ok true ->
    k8s.delete_secret K c namespace (g ++ "-" ++ n) = (c', Ok tt) ->
    k8s.namespace_exists K c' namespace = Ok true ->
    k8s.list_secrets K c' namespace (Some g) = Ok secrets ->
    Dict.get (g ++ "-" ++ n) secrets = None ->
    bind (delete_secret K namespace g n)
         (fun _ => display_secrets K namespace (Some g) (Some n)) c =
    mkOutcome c'
      [NamespaceExists namespace; SecretExists namespace (g ++ "-" ++ n);
       DeleteSecret namespace (g ++ "-" ++ n);
       Print ("secret=" ++ n ++ " in group=" ++ g ++ " deleted from namespace=" ++ namespace);
       NamespaceExists namespace; ListSecrets namespace (Some g);
       Print (header_line n); Print (cannot_find n namespace)]
      (Ok tt).
Proof.
  intros cluster K c c' namespace g n secrets Hns Hs Hdel Hns' Hl Hg.
  unfold bind at 1.
  rewrite (delete_secret_present K c namespace g n Hns Hs).
  unfold _create_complete_secret_name. cbv zeta. rewrite Hdel.
  cbn [fst snd value final trace].
  rewrite (display_secrets_named K c' namespace n (Some g) secrets Hns'
             (andb_false_r _) Hl).
  unfold _create_complete_secret_name, format_optional. rewrite Hg.
  reflexivity.
Qed.

Lemma delete_then_display_witness :
  bind (delete_secret MemStore.store "dev" "g" "n")
       (fun _ => display_secrets MemStore.store "dev" (Some "g") (Some "n"))
       MemStore.dev_one =
  mkOutcome MemStore.dev_empty
    [NamespaceExists "dev"; SecretExists "dev" ("g" ++ "-" ++ "n");
     DeleteSecret "dev" ("g" ++ "-" ++ "n");
     Print ("secret=" ++ "n" ++ " in group=" ++ "g" ++ " deleted from namespace=" ++ "dev");
     NamespaceExists "dev"; ListSecrets "dev" (Some "g");
     Print (header_line "n"); Print (cannot_find "n" "dev")]
    (Ok tt).
Proof.
  exact (delete_then_display _ MemStore.store MemStore.dev_one MemStore.dev_empty
           "dev" "g" "n" [] eq_refl eq_refl eq_refl eq_refl eq_refl eq_refl).
Defined.
